(** * setup_marathon_job: a shallow embedding and its specification

    The program under study is the entry point
    [service_deployment_tools/setup_marathon_job.py].  It publishes one
    instance of one service to Marathon and reports the outcome to Sensu.

    The script is a sequence of calls to external collaborators (the
    configuration library, the registry, the Marathon client, the bounce
    library and the Sensu client), glued by exception handling.  It is
    embedded as a computation in a small monad that
      - reads an environment [Env] describing how the collaborators answer,
      - produces the list of the external calls it made, with their answers,
      - returns a value or raises a Python exception. *)

From Stdlib Require Import Ascii.
From stdpp Require Import gmap strings pretty list.

(** ** Python exceptions

    The exceptions of the interpreter and of the libraries, classified by
    the classes the script's handlers tell apart.  [KeyError], [TypeError]
    and [ValueError] carry the text of [str(e)], which [main] forwards to
    the alert; the other classes are never inspected. *)

Inductive exn : Type :=
| KeyError (text : string)
| TypeError (text : string)
| ValueError (text : string)
| IndexError
| IOError
| AttributeError
| OtherError (cls : string).

(** What a builtin or a collaborator answers: a value or an exception. *)
Inductive result (A : Type) : Type :=
| Ok (a : A)
| Raise (e : exn).
Arguments Ok {A} a.
Arguments Raise {A} e.

(** How a piece of the script ends: it returns, an exception leaves it, or
    [sys.exit(code)] was called ([SystemExit], which no handler of the script
    catches). *)
Inductive outcome (A : Type) : Type :=
| Done (a : A)
| Raised (e : exn)
| Exited (code : Z).
Arguments Done {A} a.
Arguments Raised {A} e.
Arguments Exited {A} code.

Definition of_result {A} (r : result A) : outcome A :=
  match r with
  | Ok a => Done a
  | Raise e => Raised e
  end.

Definition exn_str (e : exn) : string :=
  match e with
  | KeyError t | TypeError t | ValueError t => t
  | IndexError => "list index out of range"
  | IOError | AttributeError | OtherError _ => EmptyString
  end.

(** ** Python values read from the YAML configuration

    [PObject] stands for any other, non-textual object (a list, a dict, a
    float): the script observes of it only its truth value, its rendering by
    [str()] and what [int()] makes of it. *)

Inductive pyval : Type :=
| PNone
| PBool (b : bool)
| PInt (n : Z)
| PStr (s : string)
| PObject (truthy : bool) (shown : string) (as_int : result Z).

Definition py_truthy (v : pyval) : bool :=
  match v with
  | PNone => false
  | PBool b => b
  | PInt n => negb (n =? 0)%Z
  | PStr s => negb (String.eqb s EmptyString)
  | PObject t _ _ => t
  end.

(** [str(v)], as used by the [%s] conversions of the script. *)
Definition py_str (v : pyval) : string :=
  match v with
  | PNone => "None"
  | PBool true => "True"
  | PBool false => "False"
  | PInt n => pretty n
  | PStr s => s
  | PObject _ shown _ => shown
  end.

(** [v == s] for a [str] literal [s]. *)
Definition py_eq_str (v : pyval) (s : string) : bool :=
  match v with
  | PStr t => String.eqb t s
  | _ => false
  end.

(** ** Strings *)

(** [needle in hay]. *)
Fixpoint contains (needle hay : string) : bool :=
  String.prefix needle hay ||
  match hay with
  | EmptyString => false
  | String _ hay' => contains needle hay'
  end.

(** [s.split(sep)] for a non-empty [sep]: the leftmost occurrences of [sep],
    without overlap.  [skip] counts the characters of a matched separator
    that are still to be dropped, [cur] is the part being read. *)
Fixpoint split_go (sep s : string) (skip : nat) (cur : string) : list string :=
  match s with
  | EmptyString => [cur]
  | String c s' =>
      match skip with
      | S k => split_go sep s' k cur
      | O =>
          if String.prefix sep s
          then cur :: split_go sep s' (String.length sep - 1) EmptyString
          else split_go sep s' 0 (cur +:+ String c EmptyString)
      end
  end.

Definition py_split (s sep : string) : result (list string) :=
  if String.eqb sep EmptyString then Raise (ValueError "empty separator")
  else Ok (split_go sep s 0 EmptyString).

(** [l[i]] on a list. *)
Definition py_index {A} (l : list A) (i : nat) : result A :=
  match l !! i with
  | Some x => Ok x
  | None => Raise IndexError
  end.

(** [posixpath.join(a, *p)]. *)
Fixpoint ends_with_slash (s : string) : bool :=
  match s with
  | EmptyString => false
  | String c EmptyString => Ascii.eqb c "/"%char
  | String _ s' => ends_with_slash s'
  end.

Definition path_join2 (path b : string) : string :=
  if String.prefix "/" b then b
  else if String.eqb path EmptyString || ends_with_slash path then path +:+ b
  else path +:+ "/" +:+ b.

Definition os_path_join (a : string) (p : list string) : string :=
  foldl path_join2 a p.

(** ** Dictionaries *)

(** [d[k]]: a missing key raises [KeyError], whose text is [repr(k)]. *)
Definition dict_getitem (d : gmap string pyval) (k : string) : result pyval :=
  match d !! k with
  | Some v => Ok v
  | None => Raise (KeyError ("'" +:+ k +:+ "'"))
  end.

(** [d.get(k)]. *)
Definition dict_get (d : gmap string pyval) (k : string) : pyval :=
  default PNone (d !! k).

(** [del d[k]]. *)
Definition dict_del (d : gmap string pyval) (k : string)
  : result (gmap string pyval) :=
  match d !! k with
  | Some _ => Ok (delete k d)
  | None => Raise (KeyError ("'" +:+ k +:+ "'"))
  end.

(** ** The collaborators and the calls made to them *)

(** An app record of the Marathon client: the script reads only [app.id]. *)
Record MarathonApp : Type := { app_id : string }.

(** The handle returned by [MarathonClient(url, user, passwd)]. *)
Record MarathonClient : Type :=
  { client_url : pyval; client_user : pyval; client_passwd : pyval }.

(** The dict built by [create_complete_config]; its keys are fixed. *)
Record complete_config : Type :=
  { cfg_id : string;
    cfg_container_image : string;
    cfg_container_options : pyval;
    cfg_uris : list pyval;
    cfg_ports : list Z;
    cfg_mem : Z;
    cfg_cpus : Z;
    cfg_constraints : pyval;
    cfg_instances : Z }.

(** [pysensu_yelp.Status], as far as the script uses it. *)
Inductive sensu_status : Type := Status_OK | Status_CRITICAL.

(** One external call, with its arguments and its answer. *)
Inductive event : Type :=
| EvGetConfig (r : result (gmap string pyval))
| EvMarathonClient (url user passwd : pyval) (r : result unit)
| EvReadServiceConfig (service instance : string) (cluster : pyval)
    (soa_dir : string) (r : result (option (gmap string pyval)))
| EvCurlPerform (url : string) (r : result string)
| EvGetApp (client : MarathonClient) (id : string) (r : result unit)
| EvListApps (client : MarathonClient) (r : result (list MarathonApp))
| EvCreateApp (client : MarathonClient) (config : complete_config)
    (r : result unit)
| EvBrutalBounce (old_ids : list string) (config : complete_config)
    (client : MarathonClient) (r : result unit)
| EvReadMonitoring (file : string) (r : result (gmap string pyval))
| EvSendEvent (name runbook : string) (status : sensu_status)
    (output : string) (team : pyval) (kwargs : gmap string pyval)
    (r : result unit).

(** How the world outside the script answers.  Every collaborator sees the
    calls made so far, so its answers may change during a run.  The three
    [marathon_tools] members and the two interpreter services ([int()] on
    text, [os.path.abspath]) are not part of this file of the repository and
    are taken as they come. *)
Record Env : Type :=
  { ID_SPACER : string;
    compose_job_id : string → string → pyval → result string;
    remove_iteration_from_job_id : string → result string;
    int_of_text : string → result Z;
    os_path_abspath : string → string;
    marathon_tools_get_config : list event → result (gmap string pyval);
    marathon_tools_read_service_config :
      list event → string → string → pyval → string →
      result (option (gmap string pyval));
    new_MarathonClient : list event → pyval → pyval → pyval → result unit;
    curl_perform : list event → string → result string;
    client_get_app : list event → MarathonClient → string → result unit;
    client_list_apps : list event → MarathonClient → result (list MarathonApp);
    client_create_app :
      list event → MarathonClient → complete_config → result unit;
    bounce_lib_brutal_bounce :
      list event → list string → complete_config → MarathonClient →
      result unit;
    read_monitoring : list event → string → result (gmap string pyval);
    pysensu_yelp_send_event :
      list event → string → string → sensu_status → string → pyval →
      gmap string pyval → result unit }.

(** ** The monad of the script

    A computation reads the environment and the calls made before it
    started; it ends with an outcome and with the calls it made itself, in
    order. *)

Definition M (A : Type) : Type := Env → list event → outcome A * list event.

Definition ret {A} (a : A) : M A := λ _ _, (Done a, []).

Definition raise {A} (e : exn) : M A := λ _ _, (Raised e, []).

(** A builtin or a pure library function: its exception leaves the script. *)
Definition lift {A} (r : result A) : M A := λ _ _, (of_result r, []).

Definition ask : M Env := λ env _, (Done env, []).

Definition bind {A B} (m : M A) (f : A → M B) : M B := λ env h,
  match m env h with
  | (Done a, t1) => let '(r, t2) := f a env (h ++ t1) in (r, t1 ++ t2)
  | (Raised e, t1) => (Raised e, t1)
  | (Exited code, t1) => (Exited code, t1)
  end.

(** [try: m  except <catches> as e: handler e]. *)
Definition try_except {A} (m : M A) (catches : exn → bool)
    (handler : exn → M A) : M A := λ env h,
  match m env h with
  | (Raised e, t1) =>
      if catches e
      then let '(r, t2) := handler e env (h ++ t1) in (r, t1 ++ t2)
      else (Raised e, t1)
  | other => other
  end.

(** An external call: ask the environment, record the call. *)
Definition call {A} (answer : Env → list event → result A)
    (ev : result A → event) : M A := λ env h,
  let r := answer env h in (of_result r, [ev r]).

Global Instance M_ret : MRet M := @ret.
Global Instance M_bind : MBind M := λ A B f m, bind m f.

(** [sys.exit(code)]. *)
Definition sys_exit {A} (code : Z) : M A := λ _ _, (Exited code, []).

Definition is_KeyError (e : exn) : bool :=
  match e with KeyError _ => true | _ => false end.
Definition is_TypeError (e : exn) : bool :=
  match e with TypeError _ => true | _ => false end.
Definition is_IndexError (e : exn) : bool :=
  match e with IndexError => true | _ => false end.
Definition is_IOError (e : exn) : bool :=
  match e with IOError => true | _ => false end.
Definition is_Key_Type_ValueError (e : exn) : bool :=
  match e with
  | KeyError _ | TypeError _ | ValueError _ => true
  | _ => false
  end.

(** [int(v)]; what [int()] makes of a text is the interpreter's business. *)
Definition py_int (env : Env) (v : pyval) : result Z :=
  match v with
  | PNone =>
      Raise (TypeError
        "int() argument must be a string or a number, not 'NoneType'")
  | PBool b => Ok (if b then 1 else 0)%Z
  | PInt n => Ok n
  | PStr s => int_of_text env s
  | PObject _ _ as_int => as_int
  end.

(** ** The script

    Calls to the logger are left out; an argument of a log call that can
    raise is still evaluated where the script evaluates it. *)

(** What [parse_args] returns. *)
Record Args : Type :=
  { service_instance : string; soa_dir : string; verbose : bool }.

Definition send_sensu_event (name instance soa_dir : string)
    (status : sensu_status) (output : string) : M unit :=
  env ← ask;
  let rootdir := os_path_abspath env soa_dir in
  let monitoring_file := os_path_join rootdir [name; "monitoring.yaml"] in
  monitor_conf ← call (λ env h, read_monitoring env h monitoring_file)
                      (EvReadMonitoring monitoring_file);
  let full_name :=
    "setup_marathon_job." +:+ name +:+ ID_SPACER env +:+ instance in
  let runbook := "y/rb-marathon" in
  let team := dict_get monitor_conf "team" in
  if py_truthy team then
    monitor_conf ←
      (if bool_decide (is_Some (monitor_conf !! "runbook"))
       then lift (dict_del monitor_conf "runbook")
       else mret monitor_conf);
    monitor_conf ← lift (dict_del monitor_conf "team");
    let monitor_conf := <["alert_after" := PInt (-1)]> monitor_conf in
    try_except
      (call (λ env h, pysensu_yelp_send_event env h full_name runbook status
                        output team monitor_conf)
            (EvSendEvent full_name runbook status output team monitor_conf))
      is_TypeError
      (λ _, mret ())
  else mret ().

Definition get_main_marathon_config : M (gmap string pyval) :=
  call marathon_tools_get_config EvGetConfig.

(** [v.split(sep)]: only text has the method. *)
Definition str_split (v : pyval) (sep : string) : result (list string) :=
  match v with
  | PStr s => py_split s sep
  | _ => Raise AttributeError
  end.

Definition get_docker_url (registry_uri docker_image : pyval) : M string :=
  parts ← lift (str_split docker_image ":");
  image_name ← lift (py_index parts 0);
  parts ← lift (str_split docker_image ":");
  image_tag ← lift (py_index parts 1);
  let url := "http://" +:+ py_str registry_uri +:+ "/v1/repositories/"
             +:+ image_name +:+ "/tags/" +:+ image_tag in
  body ← call (λ env h, curl_perform env h url) (EvCurlPerform url);
  if contains "error" body then mret EmptyString
  else mret ("docker:///" +:+ py_str registry_uri +:+ "/"
             +:+ py_str docker_image).

Definition get_ports (service_config : gmap string pyval) : M (list Z) :=
  let num_ports := dict_get service_config "num_ports" in
  if py_truthy num_ports then
    env ← ask;
    n ← lift (py_int env num_ports);
    mret (replicate (Z.to_nat n) 0%Z)
  else mret [0%Z].

Definition get_mem (service_config : gmap string pyval) : M Z :=
  let mem := dict_get service_config "mem" in
  if py_truthy mem then env ← ask; lift (py_int env mem) else mret 100%Z.

Definition get_cpus (service_config : gmap string pyval) : M Z :=
  let cpus := dict_get service_config "cpus" in
  if py_truthy cpus then env ← ask; lift (py_int env cpus) else mret 1%Z.

Definition get_constraints (service_config : gmap string pyval) : pyval :=
  dict_get service_config "constraints".

Definition get_instances (service_config : gmap string pyval) : M Z :=
  let instances := dict_get service_config "instances" in
  if py_truthy instances then env ← ask; lift (py_int env instances) else mret 1%Z.

Definition get_bounce_method (service_config : gmap string pyval) : pyval :=
  let bounce_method := dict_get service_config "bounce_method" in
  if py_truthy bounce_method then bounce_method else PStr "brutal".

Definition get_marathon_client (url user passwd : pyval) : M MarathonClient :=
  call (λ env h, new_MarathonClient env h url user passwd)
       (EvMarathonClient url user passwd);;
  mret {| client_url := url; client_user := user; client_passwd := passwd |}.

Definition create_complete_config (name url : string) (docker_options : pyval)
    (service_marathon_config : gmap string pyval) : M complete_config :=
  ports ← get_ports service_marathon_config;
  mem ← get_mem service_marathon_config;
  cpus ← get_cpus service_marathon_config;
  let constraints := get_constraints service_marathon_config in
  instances ← get_instances service_marathon_config;
  mret {| cfg_id := name;
          cfg_container_image := url;
          cfg_container_options := docker_options;
          cfg_uris := [];
          cfg_ports := ports;
          cfg_mem := mem;
          cfg_cpus := cpus;
          cfg_constraints := constraints;
          cfg_instances := instances |}.

(** The body of the [try] of [deploy_service] either returns from the
    function ([Some]) or falls through to the last two lines ([None]). *)
Definition deploy_service (name : string) (config : complete_config)
    (client : MarathonClient) (bounce_method : pyval) : M (Z * string) :=
  env ← ask;
  filter_name ← lift (remove_iteration_from_job_id env name);
  app_list ← call (λ env h, client_list_apps env h client) (EvListApps client);
  let old_app_ids :=
    app_id <$> filter (λ app, contains filter_name (app_id app)) app_list in
  match old_app_ids with
  | _ :: _ =>
      returned ←
        try_except
          (if py_eq_str bounce_method "brutal" then
             call (λ env h, bounce_lib_brutal_bounce env h old_app_ids config
                              client)
                  (EvBrutalBounce old_app_ids config client);;
             mret None
           else
             mret (Some (1%Z, "bounce_method not recognized: "
                              +:+ py_str bounce_method)))
          is_IOError
          (λ _, mret (Some (1%Z, "Service is taking a while to bounce")));
      match returned with
      | Some r => mret r
      | None => mret (0%Z, "Service deployed.")
      end
  | [] =>
      call (λ env h, client_create_app env h client config)
           (EvCreateApp client config);;
      mret (0%Z, "Service deployed.")
  end.

Definition setup_service (service_name instance_name : string)
    (client : MarathonClient)
    (marathon_config service_marathon_config : gmap string pyval)
  : M (Z * string) :=
  env ← ask;
  iteration ← lift (dict_getitem service_marathon_config "iteration");
  full_id ← lift (compose_job_id env service_name instance_name iteration);
  lift (remove_iteration_from_job_id env full_id);;
  docker_registry ← lift (dict_getitem marathon_config "docker_registry");
  docker_image ← lift (dict_getitem service_marathon_config "docker_image");
  docker_url ← get_docker_url docker_registry docker_image;
  if String.eqb docker_url EmptyString then
    docker_image ← lift (dict_getitem service_marathon_config "docker_image");
    mret (1%Z, "Docker image not found: " +:+ py_str docker_image)
  else
    docker_options ← lift (dict_getitem marathon_config "docker_options");
    complete_config ← create_complete_config full_id docker_url docker_options
                        service_marathon_config;
    try_except
      (lift (dict_getitem service_marathon_config "iteration");;
       call (λ env h, client_get_app env h client full_id)
            (EvGetApp client full_id);;
       mret (0%Z, "Service was already deployed."))
      is_KeyError
      (λ _, deploy_service full_id complete_config client
              (get_bounce_method service_marathon_config)).

(** A dict, or [None], used as a condition. *)
Definition config_truthy (c : option (gmap string pyval)) : bool :=
  match c with
  | Some d => negb (bool_decide (d = ∅))
  | None => false
  end.

(** [main], from the line that reads the orchestrator configuration on:
    what it does once the two names are known. *)
Definition main_deploy (args : Args) (service_name instance_name : string)
  : M unit :=
  let soa_dir := soa_dir args in
  marathon_config ← get_main_marathon_config;
  url ← lift (dict_getitem marathon_config "url");
  user ← lift (dict_getitem marathon_config "user");
  passwd ← lift (dict_getitem marathon_config "pass");
  client ← get_marathon_client url user passwd;
  cluster ← lift (dict_getitem marathon_config "cluster");
  service_instance_config ←
    call (λ env h, marathon_tools_read_service_config env h service_name
                     instance_name cluster soa_dir)
         (EvReadServiceConfig service_name instance_name cluster soa_dir);
  if config_truthy service_instance_config then
    try_except
      ('(status, output) ←
         setup_service service_name instance_name client marathon_config
           (default ∅ service_instance_config);
       let sensu_status :=
         if (status =? 0)%Z then Status_OK else Status_CRITICAL in
       send_sensu_event service_name instance_name soa_dir sensu_status
         output;;
       sys_exit status)
      is_Key_Type_ValueError
      (λ e,
         send_sensu_event service_name instance_name soa_dir Status_CRITICAL
           (exn_str e);;
         sys_exit 1)
  else
    cluster ← lift (dict_getitem marathon_config "cluster");
    let error_msg :=
      "Could not read marathon configuration file for "
      +:+ service_instance args +:+ " in cluster " +:+ py_str cluster in
    send_sensu_event service_name instance_name soa_dir Status_CRITICAL
      error_msg;;
    sys_exit 1.

Definition main (args : Args) : M unit :=
  env ← ask;
  '(service_name, instance_name) ←
    try_except
      (parts ← lift (py_split (service_instance args) (ID_SPACER env));
       service_name ← lift (py_index parts 0);
       parts ← lift (py_split (service_instance args) (ID_SPACER env));
       instance_name ← lift (py_index parts 1);
       mret (service_name, instance_name))
      is_IndexError
      (λ _, sys_exit 1);
  main_deploy args service_name instance_name.

(** The end of [main], from [if service_instance_config:] on, once the
    client and the two configurations are there. *)
Definition main_report (args : Args) (service_name instance_name : string)
    (client : MarathonClient) (marathon_config : gmap string pyval)
    (service_instance_config : option (gmap string pyval)) : M unit :=
  let soa_dir := soa_dir args in
  if config_truthy service_instance_config then
    try_except
      ('(status, output) ←
         setup_service service_name instance_name client marathon_config
           (default ∅ service_instance_config);
       let sensu_status :=
         if (status =? 0)%Z then Status_OK else Status_CRITICAL in
       send_sensu_event service_name instance_name soa_dir sensu_status
         output;;
       sys_exit status)
      is_Key_Type_ValueError
      (λ e,
         send_sensu_event service_name instance_name soa_dir Status_CRITICAL
           (exn_str e);;
         sys_exit 1)
  else
    cluster ← lift (dict_getitem marathon_config "cluster");
    let error_msg :=
      "Could not read marathon configuration file for "
      +:+ service_instance args +:+ " in cluster " +:+ py_str cluster in
    send_sensu_event service_name instance_name soa_dir Status_CRITICAL
      error_msg;;
    sys_exit 1.

(** The status the process ends with: the argument of [sys.exit], 1 for an
    exception nobody caught, 0 when [main] returns. *)
Definition exit_status {A} (r : outcome A) : Z :=
  match r with
  | Done _ => 0
  | Raised _ => 1
  | Exited code => code
  end.

(** ** Reading a run *)

Definition is_send_event (e : event) : bool :=
  match e with EvSendEvent _ _ _ _ _ _ _ => true | _ => false end.
Definition is_read_monitoring (e : event) : bool :=
  match e with EvReadMonitoring _ _ => true | _ => false end.
Definition is_list_apps (e : event) : bool :=
  match e with EvListApps _ _ => true | _ => false end.
Definition is_create_app (e : event) : bool :=
  match e with EvCreateApp _ _ _ => true | _ => false end.
Definition is_brutal_bounce (e : event) : bool :=
  match e with EvBrutalBounce _ _ _ _ => true | _ => false end.

(** How many calls of a kind a run made. *)
Fixpoint count (p : event → bool) (t : list event) : nat :=
  match t with
  | [] => 0
  | e :: t' => (if p e then 1 else 0) + count p t'
  end.

(** Every call of [send_sensu_event] starts by reading the monitoring file:
    the attempts to report are the reads of that file. *)
Definition alert_attempts (t : list event) : nat := count is_read_monitoring t.

(** The ids that [deploy_service] takes for earlier iterations of the
    instance: its list comprehension. *)
Definition old_app_ids (filter_name : string) (app_list : list MarathonApp)
  : list string :=
  app_id <$> filter (λ app, contains filter_name (app_id app)) app_list.

(** A configured value is unset (absent or falsy, so that the default is
    taken) or [int()] makes a positive integer of it. *)
Definition unset_or_positive (env : Env) (v : pyval) : Prop :=
  py_truthy v = false ∨ ∃ n, py_int env v = Ok n ∧ (0 < n)%Z.

(** A piece of the script that does not call [sys.exit] and whose calls all
    satisfy [P]. *)
Definition quiet {A} (P : event → Prop) (x : outcome A * list event) : Prop :=
  (∀ code, x.1 ≠ Exited code) ∧ Forall P x.2.

(** A call that is no part of reporting. *)
Definition not_alert_call (e : event) : Prop :=
  is_read_monitoring e = false ∧ is_send_event e = false.

(** The event names a run passed to the alert client, in order. *)
Definition send_event_names (t : list event) : list string :=
  omap (λ e, match e with
             | EvSendEvent name _ _ _ _ _ _ => Some name
             | _ => None
             end) t.

(** A monitoring record supplies a team when its [team] entry is there and is
    not empty. *)
Definition supplies_team (monitor_conf : gmap string pyval) : Prop :=
  ∃ team, monitor_conf !! "team" = Some team ∧ py_truthy team = true.

(** An error of the monitoring reader or of the alert client that leaves
    [send_sensu_event] and that the handler of [main] takes for a data error
    of the deployment. *)
Definition alert_data_error (e : event) : bool :=
  match e with
  | EvReadMonitoring _ (Raise x) => is_Key_Type_ValueError x
  | EvSendEvent _ _ _ _ _ _ (Raise x) =>
      is_Key_Type_ValueError x && negb (is_TypeError x)
  | _ => false
  end.

(** The calls of the deployment proper. *)
Definition is_deploy_call (e : event) : bool :=
  is_list_apps e || is_create_app e || is_brutal_bounce e.

(** A piece of the script reports once: provided the monitoring reader and
    the alert client raise no data error, it attempts to report at most once,
    sends no more events than it makes attempts, and attempts exactly once
    when it ends in [sys.exit]. *)
Definition reports_once {A} (x : outcome A * list event) : Prop :=
  Forall (λ e, alert_data_error e = false) x.2 →
  alert_attempts x.2 ≤ 1 ∧
  count is_send_event x.2 ≤ alert_attempts x.2 ∧
  (∀ code, x.1 = Exited code → alert_attempts x.2 = 1).

Definition is_curl_perform (e : event) : bool :=
  match e with EvCurlPerform _ _ => true | _ => false end.
Definition is_get_app (e : event) : bool :=
  match e with EvGetApp _ _ _ => true | _ => false end.
Definition is_read_service_config (e : event) : bool :=
  match e with EvReadServiceConfig _ _ _ _ _ => true | _ => false end.

(** The calls that reach the orchestrator. *)
Definition is_orchestrator_call (e : event) : bool :=
  is_get_app e || is_deploy_call e.

(** A call that changes what the orchestrator runs. *)
Definition is_change (e : event) : bool :=
  is_create_app e || is_brutal_bounce e.

(** An orchestrator call that came back without an error. *)
Definition orchestrator_said_yes (e : event) : bool :=
  match e with
  | EvGetApp _ _ (Ok _) | EvCreateApp _ _ (Ok _)
  | EvBrutalBounce _ _ _ (Ok _) => true
  | _ => false
  end.

(** The client handle an orchestrator call goes through is [client]. *)
Definition uses_client (client : MarathonClient) (e : event) : Prop :=
  match e with
  | EvGetApp c _ _ | EvListApps c _ | EvCreateApp c _ _
  | EvBrutalBounce _ _ c _ => c = client
  | _ => True
  end.

(** The statuses and the outputs a run passed to the alert client. *)
Definition send_event_statuses (t : list event) : list sensu_status :=
  omap (λ e, match e with
             | EvSendEvent _ _ status _ _ _ _ => Some status
             | _ => None
             end) t.
Definition send_event_outputs (t : list event) : list string :=
  omap (λ e, match e with
             | EvSendEvent _ _ _ output _ _ _ => Some output
             | _ => None
             end) t.

(** A call [main] makes before it has the service configuration. *)
Definition before_config (e : event) : bool :=
  match e with
  | EvGetConfig _ | EvMarathonClient _ _ _ _
  | EvReadServiceConfig _ _ _ _ (Raise _) => true
  | _ => false
  end.

(** A call that fetches a configuration or builds the client. *)
Definition is_config_call (e : event) : bool :=
  match e with
  | EvGetConfig _ | EvMarathonClient _ _ _ _
  | EvReadServiceConfig _ _ _ _ _ => true
  | _ => false
  end.

(** [int()] makes an integer of a configured value, as far as the value is
    set: an unset value (absent or falsy) is never converted. *)
Definition int_accepts (env : Env) (v : pyval) : Prop :=
  py_truthy v = true → ∃ n, py_int env v = Ok n.

(** The files a run asked the monitoring reader for, in order. *)
Definition monitoring_files (t : list event) : list string :=
  omap (λ e, match e with
             | EvReadMonitoring file _ => Some file
             | _ => None
             end) t.

(** The calls of a deployment, as far as it got: none, or one request to
    the registry and then calls of the orchestrator only, among them one
    lookup at most and one change at most. *)
Definition registry_then_orchestrator (t : list event) : Prop :=
  t = [] ∨
  ∃ url answer rest,
    t = EvCurlPerform url answer :: rest ∧
    Forall (λ e, is_orchestrator_call e = true) rest ∧
    count is_get_app rest ≤ 1 ∧ count is_change rest ≤ 1.

(** A call that is part of reporting. *)
Definition is_alert_call (e : event) : Prop :=
  is_read_monitoring e = true ∨ is_send_event e = true.


(** ** Sample worlds

    A world in which every collaborator answers: the separator is [sep],
    the lookup of the exact id answers [found], Marathon lists [apps] and
    the monitoring file holds [monitoring]. *)

Definition sample_marathon_config : gmap string pyval :=
  {[ "url" := PStr "http://marathon:8080";
     "user" := PStr "admin";
     "pass" := PStr "secret";
     "cluster" := PStr "devc";
     "docker_registry" := PStr "registry.local";
     "docker_options" := PObject false "[]" (Raise (TypeError "list")) ]}.

Definition sample_service_config : gmap string pyval :=
  {[ "iteration" := PStr "v1"; "docker_image" := PStr "checkout:latest" ]}.

Definition sample_monitoring : gmap string pyval :=
  {[ "team" := PStr "infra";
     "runbook" := PStr "y/rb-checkout";
     "page" := PBool true ]}.

Definition sample_remove_iteration (sep id : string) : result string :=
  match split_go sep id 0 EmptyString with
  | name :: instance :: _ => Ok (name +:+ sep +:+ instance)
  | _ => Raise IndexError
  end.

Definition world (sep : string) (found : result unit)
    (apps : list MarathonApp) (monitoring : gmap string pyval) : Env :=
  {| ID_SPACER := sep;
     compose_job_id := λ name instance iteration,
       Ok (name +:+ sep +:+ instance +:+ sep +:+ py_str iteration);
     remove_iteration_from_job_id := sample_remove_iteration sep;
     int_of_text := λ _, Raise (ValueError "invalid literal for int()");
     os_path_abspath := λ p, p;
     marathon_tools_get_config := λ _, Ok sample_marathon_config;
     marathon_tools_read_service_config := λ _ _ _ _ _,
       Ok (Some sample_service_config);
     new_MarathonClient := λ _ _ _ _, Ok ();
     curl_perform := λ _ _, Ok "{}";
     client_get_app := λ _ _ _, found;
     client_list_apps := λ _ _, Ok apps;
     client_create_app := λ _ _ _, Ok ();
     bounce_lib_brutal_bounce := λ _ _ _ _, Ok ();
     read_monitoring := λ _ _, Ok monitoring;
     pysensu_yelp_send_event := λ _ _ _ _ _ _ _, Ok () |}.

(** The same world, except that the alert client refuses every event with
    the error [refusal]. *)
Definition world_refusing_alerts (w : Env) (refusal : exn) : Env :=
  {| ID_SPACER := ID_SPACER w;
     compose_job_id := compose_job_id w;
     remove_iteration_from_job_id := remove_iteration_from_job_id w;
     int_of_text := int_of_text w;
     os_path_abspath := os_path_abspath w;
     marathon_tools_get_config := marathon_tools_get_config w;
     marathon_tools_read_service_config :=
       marathon_tools_read_service_config w;
     new_MarathonClient := new_MarathonClient w;
     curl_perform := curl_perform w;
     client_get_app := client_get_app w;
     client_list_apps := client_list_apps w;
     client_create_app := client_create_app w;
     bounce_lib_brutal_bounce := bounce_lib_brutal_bounce w;
     read_monitoring := read_monitoring w;
     pysensu_yelp_send_event := λ _ _ _ _ _ _ _, Raise refusal |}.

Definition sample_client : MarathonClient :=
  {| client_url := PStr "http://marathon:8080";
     client_user := PStr "admin";
     client_passwd := PStr "secret" |}.

Definition sample_config (id : string) : complete_config :=
  {| cfg_id := id;
     cfg_container_image := "docker:///registry.local/checkout:latest";
     cfg_container_options := PObject false "[]" (Raise (TypeError "list"));
     cfg_uris := [];
     cfg_ports := [0%Z];
     cfg_mem := 100;
     cfg_cpus := 1;
     cfg_constraints := PNone;
     cfg_instances := 1 |}.

(** A world in which every collaborator gives the same answer whenever it
    is asked. *)
Definition constant_world (sep : string)
    (config : result (gmap string pyval))
    (service_config : result (option (gmap string pyval)))
    (body : result string) (found : result unit)
    (apps : result (list MarathonApp)) (created bounced : result unit)
    (monitoring : result (gmap string pyval)) (sent : result unit) : Env :=
  {| ID_SPACER := sep;
     compose_job_id := λ name instance iteration,
       Ok (name +:+ sep +:+ instance +:+ sep +:+ py_str iteration);
     remove_iteration_from_job_id := sample_remove_iteration sep;
     int_of_text := λ _, Raise (ValueError "invalid literal for int()");
     os_path_abspath := λ p, p;
     marathon_tools_get_config := λ _, config;
     marathon_tools_read_service_config := λ _ _ _ _ _, service_config;
     new_MarathonClient := λ _ _ _ _, Ok ();
     curl_perform := λ _ _, body;
     client_get_app := λ _ _ _, found;
     client_list_apps := λ _ _, apps;
     client_create_app := λ _ _ _, created;
     bounce_lib_brutal_bounce := λ _ _ _ _, bounced;
     read_monitoring := λ _ _, monitoring;
     pysensu_yelp_send_event := λ _ _ _ _ _ _ _, sent |}.

(** The lookup of the exact id fails with [KeyError]. *)
Definition not_found : result unit := Raise (KeyError "'checkout.main.v2'").

(** The arguments of a run on "checkout.main". *)
Definition sample_args : Args :=
  {| service_instance := "checkout.main"; soa_dir := "/nail/soa";
     verbose := false |}.

(** * Properties *)

(** ** Running the monad *)

Lemma run_bind {A B} (m : M A) (f : A → M B) env h :
  (m ≫= f) env h =
  match m env h with
  | (Done a, t1) => let '(r, t2) := f a env (h ++ t1) in (r, t1 ++ t2)
  | (Raised e, t1) => (Raised e, t1)
  | (Exited code, t1) => (Exited code, t1)
  end.
Proof. reflexivity. Qed.

Lemma count_app p t1 t2 : count p (t1 ++ t2) = count p t1 + count p t2.
Proof. induction t1 as [|e t1 IH]; simpl; [done|]. rewrite IH. lia. Qed.

Ltac run_unfold :=
  cbv [mbind M_bind bind mret M_ret ret raise lift ask call try_except
       sys_exit of_result] in *.


(** ** The builtins on small inputs *)

Example split_two : py_split "checkout.main" "." = Ok ["checkout"; "main"].
Proof. reflexivity. Qed.
Example split_none : py_split "checkout" "." = Ok ["checkout"].
Proof. reflexivity. Qed.
Example split_three : py_split "a.b.c" "." = Ok ["a"; "b"; "c"].
Proof. reflexivity. Qed.
Example split_empty_parts : py_split ".b." "." = Ok [EmptyString; "b"; EmptyString].
Proof. reflexivity. Qed.
Example split_wide : py_split "a__b___c" "__" = Ok ["a"; "b"; "_c"].
Proof. reflexivity. Qed.
Example join_ex : os_path_join "/nail/soa" ["svc"; "monitoring.yaml"] = "/nail/soa/svc/monitoring.yaml".
Proof. reflexivity. Qed.
Example str_ex : py_str (PInt (-12)) = "-12".
Proof. reflexivity. Qed.

(** ** The alerting reporter *)

(** What one call of [send_sensu_event] does, step by step. *)
Lemma send_sensu_event_run env h name instance soa_dir status output :
  let file :=
    os_path_join (os_path_abspath env soa_dir) [name; "monitoring.yaml"] in
  let full_name :=
    "setup_marathon_job." +:+ name +:+ ID_SPACER env +:+ instance in
  send_sensu_event name instance soa_dir status output env h =
  match read_monitoring env h file with
  | Raise e => (Raised e, [EvReadMonitoring file (Raise e)])
  | Ok conf =>
      if py_truthy (dict_get conf "team") then
        let kwargs :=
          <["alert_after" := PInt (-1)]>
            (delete "team" (delete "runbook" conf)) in
        let answer :=
          pysensu_yelp_send_event env (h ++ [EvReadMonitoring file (Ok conf)])
            full_name "y/rb-marathon" status output (dict_get conf "team")
            kwargs in
        (match answer with
         | Ok _ => Done ()
         | Raise e => if is_TypeError e then Done () else Raised e
         end,
         [EvReadMonitoring file (Ok conf);
          EvSendEvent full_name "y/rb-marathon" status output
            (dict_get conf "team") kwargs answer])
      else (Done (), [EvReadMonitoring file (Ok conf)])
  end.
Proof.
  intros file full_name. unfold send_sensu_event. run_unfold.
  rewrite !app_nil_r. fold file.
  destruct (read_monitoring env h file) as [conf|e]; [|done].
  unfold dict_get. destruct (conf !! "team") as [team|] eqn:Hteam; simpl;
    [|done].
  destruct (py_truthy team); [|done].
  assert (Hdel : ∀ d : gmap string pyval, d !! "team" = Some team →
            dict_del d "team" = Ok (delete "team" d)).
  { intros d Hd. unfold dict_del. by rewrite Hd. }
  case_bool_decide as Hrb.
  - destruct Hrb as [rb Hrb]. unfold dict_del at 1. rewrite Hrb.
    rewrite Hdel by (by rewrite lookup_delete_ne).
    rewrite !app_nil_r. fold full_name.
    destruct (pysensu_yelp_send_event _ _ _ _ _ _ _ _) as [[]|e]; [done|].
    by destruct (is_TypeError e).
  - rewrite Hdel by done. rewrite !app_nil_r. fold full_name.
    rewrite (delete_id conf "runbook")
      by (by apply eq_None_not_Some).
    destruct (pysensu_yelp_send_event _ _ _ _ _ _ _ _) as [[]|e]; [done|].
    by destruct (is_TypeError e).
Qed.

Lemma supplies_team_truthy conf :
  supplies_team conf ↔ py_truthy (dict_get conf "team") = true.
Proof.
  unfold supplies_team, dict_get. split.
  - intros (team & -> & Htruthy). done.
  - destruct (conf !! "team") as [team|]; simpl; [eauto|done].
Qed.

(** C7. For every monitoring record that a call of [send_sensu_event] reads,
    the call invokes the send-event operation of the alert client if and only
    if the record supplies a team (and then exactly once).  Every such
    invocation passes the fixed runbook "y/rb-marathon" and the team of the
    record; the extra fields it forwards have no [team] and no [runbook] key
    and hold [alert_after = -1]. *)
Theorem send_sensu_event_iff_team env h name instance soa_dir status output
    r t file conf :
  send_sensu_event name instance soa_dir status output env h = (r, t) →
  EvReadMonitoring file (Ok conf) ∈ t →
  ((∃ ev, ev ∈ t ∧ is_send_event ev = true) ↔ supplies_team conf) ∧
  count is_send_event t ≤ 1 ∧
  (∀ nm runbook st out team kwargs answer,
     EvSendEvent nm runbook st out team kwargs answer ∈ t →
     runbook = "y/rb-marathon" ∧
     conf !! "team" = Some team ∧
     kwargs !! "team" = None ∧
     kwargs !! "runbook" = None ∧
     kwargs !! "alert_after" = Some (PInt (-1))).
Proof.
  rewrite send_sensu_event_run, supplies_team_truthy. cbv zeta.
  destruct (read_monitoring env h _) as [conf'|e].
  - destruct (py_truthy (dict_get conf' "team")) eqn:Hteam.
    + intros [= <- <-] Hin.
      assert (conf' = conf) as ->.
      { apply elem_of_cons in Hin as [[= _ ->]|Hin]; [done|].
        by apply list_elem_of_singleton in Hin. }
      split_and!.
      * split; [done|]. intros _. eexists (EvSendEvent _ _ _ _ _ _ _).
        split; [|done]. apply elem_of_cons. right.
        by apply list_elem_of_singleton.
      * simpl. lia.
      * intros nm runbook st out team kwargs answer Hev.
        apply elem_of_cons in Hev as [[=]|Hev].
        apply list_elem_of_singleton in Hev as [= -> -> -> -> -> -> ->].
        split_and!; [done| |by simplify_map_eq..].
        apply supplies_team_truthy in Hteam as (team & Hlk & _).
        unfold dict_get. by rewrite Hlk.
    + intros [= <- <-] Hin.
      apply list_elem_of_singleton in Hin as [= _ ->].
      split_and!.
      * split; [|by rewrite Hteam]. intros (ev & Hev & Hsend).
        by apply list_elem_of_singleton in Hev as ->.
      * simpl. lia.
      * intros nm runbook st out team kwargs answer Hev.
        by apply list_elem_of_singleton in Hev.
  - intros [= <- <-] Hin. by apply list_elem_of_singleton in Hin.
Qed.

(** C7 on the sample monitoring record, which names the team "infra". *)
Lemma send_sensu_event_iff_team_witness :
  let run :=
    send_sensu_event "checkout" "main" "/nail/soa" Status_OK "Service deployed."
      (world "." (Ok ()) [] sample_monitoring) [] in
  EvReadMonitoring "/nail/soa/checkout/monitoring.yaml"
    (Ok sample_monitoring) ∈ run.2 ∧
  ((∃ ev, ev ∈ run.2 ∧ is_send_event ev = true) ↔
   supplies_team sample_monitoring).
Proof.
  intros run.
  assert (Hin : EvReadMonitoring "/nail/soa/checkout/monitoring.yaml"
            (Ok sample_monitoring) ∈ run.2) by (vm_compute; left).
  split; [exact Hin|].
  exact (proj1 (send_sensu_event_iff_team _ _ _ _ _ _ _ _ _ _ _
                  (surjective_pairing run) Hin)).
Defined.

(** C8, as the code has it. The event name of every send-event call made by
    [send_sensu_event] is the prefix "setup_marathon_job." followed by the
    service name, the shared identity separator [ID_SPACER] and the instance
    name: the two names are joined with the shared separator. The name reads
    "setup_marathon_job.<service_name>.<instance_name>" when that separator is
    ".". *)
Theorem send_sensu_event_name env h name instance soa_dir status output :
  Forall
    (λ nm, nm = "setup_marathon_job." +:+ name +:+ ID_SPACER env +:+ instance)
    (send_event_names
       (send_sensu_event name instance soa_dir status output env h).2) ∧
  (ID_SPACER env = "." →
   Forall (λ nm, nm = "setup_marathon_job." +:+ name +:+ "." +:+ instance)
     (send_event_names
        (send_sensu_event name instance soa_dir status output env h).2)).
Proof.
  rewrite send_sensu_event_run. cbv zeta.
  destruct (read_monitoring env h _) as [conf|e]; simpl.
  - destruct (py_truthy (dict_get conf "team")); simpl.
    + split; [by repeat constructor|]. intros ->. by repeat constructor.
    + split; [|intros _]; constructor.
  - split; [|intros _]; constructor.
Qed.

(** C8, as the claim has it, fails where the shared separator is not ".":
    with the separator "__" the alert for service "checkout", instance "main"
    is named "setup_marathon_job.checkout__main". *)
Lemma send_sensu_event_name_counterexample :
  send_event_names
    (send_sensu_event "checkout" "main" "/nail/soa" Status_OK
       "Service deployed." (world "__" (Ok ()) [] sample_monitoring) []).2
  = ["setup_marathon_job.checkout__main"] ∧
  String.eqb "setup_marathon_job.checkout__main"
             "setup_marathon_job.checkout.main" = false.
Proof. split; vm_compute; reflexivity. Qed.

(** ** Stepping through a computation *)

Lemma run_ret_bind {A B} (a : A) (f : A → M B) env h :
  (mret a ≫= f) env h = f a env h.
Proof.
  run_unfold. rewrite app_nil_r. by destruct (f a env h).
Qed.

Lemma run_ask_bind {B} (f : Env → M B) env h :
  (ask ≫= f) env h = f env env h.
Proof.
  run_unfold. rewrite app_nil_r. by destruct (f env env h).
Qed.

Lemma run_lift_bind {A B} (x : result A) (f : A → M B) env h :
  (lift x ≫= f) env h =
  match x with
  | Ok a => f a env h
  | Raise e => (Raised e, [])
  end.
Proof.
  run_unfold. destruct x as [a|e]; [|done].
  rewrite app_nil_r. by destruct (f a env h).
Qed.

Lemma run_call_bind {A B} (answer : Env → list event → result A)
    (ev : result A → event) (f : A → M B) env h :
  (call answer ev ≫= f) env h =
  match answer env h with
  | Ok a =>
      let '(r, t) := f a env (h ++ [ev (Ok a)]) in (r, ev (Ok a) :: t)
  | Raise e => (Raised e, [ev (Raise e)])
  end.
Proof. run_unfold. by destruct (answer env h). Qed.

Ltac run_step :=
  first [ rewrite run_ask_bind | rewrite run_lift_bind
        | rewrite run_ret_bind | rewrite run_call_bind ].

(** A call is not in a run that did not make it. *)
Ltac not_in_run H :=
  repeat (apply elem_of_cons in H as [H|H]; [discriminate H|]);
  by apply elem_of_nil in H.

(** ** The image locator *)

Lemma get_docker_url_run env h registry_uri docker_image :
  get_docker_url registry_uri docker_image env h =
  match str_split docker_image ":" with
  | Raise e => (Raised e, [])
  | Ok (image_name :: image_tag :: _) =>
      let url := "http://" +:+ py_str registry_uri +:+ "/v1/repositories/"
                 +:+ image_name +:+ "/tags/" +:+ image_tag in
      match curl_perform env h url with
      | Ok body =>
          (Done (if contains "error" body then EmptyString
                 else "docker:///" +:+ py_str registry_uri +:+ "/"
                      +:+ py_str docker_image),
           [EvCurlPerform url (Ok body)])
      | Raise e => (Raised e, [EvCurlPerform url (Raise e)])
      end
  | Ok _ => (Raised IndexError, [])
  end.
Proof.
  unfold get_docker_url. run_step.
  destruct (str_split docker_image ":") as [parts|e]; [|done].
  run_step. destruct parts as [|image_name parts]; [done|]. simpl.
  run_step. run_step. destruct parts as [|image_tag parts]; [done|]. simpl.
  run_step. destruct (curl_perform env h _) as [body|e]; [|done].
  by destruct (contains "error" body).
Qed.

(** C3. In every run of [get_docker_url] on a registry URI and a docker image
    string in which the registry answered with a body: the result is the
    empty string when the body contains "error", and otherwise exactly
    "docker:///<registry_uri>/<docker_image>". *)
Theorem get_docker_url_result env h (registry_uri docker_image : string)
    r t url body :
  get_docker_url (PStr registry_uri) (PStr docker_image) env h = (r, t) →
  EvCurlPerform url (Ok body) ∈ t →
  r = Done (if contains "error" body then EmptyString
            else "docker:///" +:+ registry_uri +:+ "/" +:+ docker_image).
Proof.
  rewrite get_docker_url_run. cbv zeta.
  destruct (str_split _ _) as [[|image_name [|image_tag parts]]|e];
    try (intros [= <- <-] Hin; not_in_run Hin).
  destruct (curl_perform env h _) as [body'|e]; intros [= <- <-] Hin.
  - apply list_elem_of_singleton in Hin as [= _ ->]. done.
  - not_in_run Hin.
Qed.

(** C3 on the image "checkout:latest" and the body "{}". *)
Lemma get_docker_url_result_witness :
  let run :=
    get_docker_url (PStr "registry.local") (PStr "checkout:latest")
      (world "." (Ok ()) [] sample_monitoring) [] in
  EvCurlPerform "http://registry.local/v1/repositories/checkout/tags/latest"
    (Ok "{}") ∈ run.2 ∧
  run.1 = Done "docker:///registry.local/checkout:latest".
Proof.
  intros run.
  assert (Hin : EvCurlPerform
            "http://registry.local/v1/repositories/checkout/tags/latest"
            (Ok "{}") ∈ run.2) by (vm_compute; left).
  split; [exact Hin|].
  exact (get_docker_url_result _ _ _ _ _ _ _ _ (surjective_pairing run) Hin).
Defined.

(** ** The deployment *)

Lemma deploy_service_run env h name config client bounce_method :
  deploy_service name config client bounce_method env h =
  match remove_iteration_from_job_id env name with
  | Raise e => (Raised e, [])
  | Ok filter_name =>
      match client_list_apps env h client with
      | Raise e => (Raised e, [EvListApps client (Raise e)])
      | Ok app_list =>
          let listed := EvListApps client (Ok app_list) in
          match old_app_ids filter_name app_list with
          | [] =>
              let answer := client_create_app env (h ++ [listed]) client
                              config in
              (match answer with
               | Ok _ => Done (0%Z, "Service deployed.")
               | Raise e => Raised e
               end,
               [listed; EvCreateApp client config answer])
          | old =>
              if py_eq_str bounce_method "brutal" then
                let answer := bounce_lib_brutal_bounce env (h ++ [listed]) old
                                config client in
                (match answer with
                 | Ok _ => Done (0%Z, "Service deployed.")
                 | Raise e =>
                     if is_IOError e
                     then Done (1%Z, "Service is taking a while to bounce")
                     else Raised e
                 end,
                 [listed; EvBrutalBounce old config client answer])
              else
                (Done (1%Z, "bounce_method not recognized: "
                            +:+ py_str bounce_method),
                 [listed])
          end
      end
  end.
Proof.
  unfold deploy_service, old_app_ids. run_step. run_step.
  destruct (remove_iteration_from_job_id env name) as [filter_name|e];
    [|done].
  run_step. destruct (client_list_apps env h client) as [app_list|e]; [|done].
  destruct (app_id <$> filter _ app_list) as [|old1 old]; cbv zeta.
  - rewrite run_call_bind.
    by destruct (client_create_app env _ client config) as [[]|e].
  - run_unfold. destruct (py_eq_str bounce_method "brutal").
    + destruct (bounce_lib_brutal_bounce env _ _ config client) as [[]|e];
        [done|]. by destruct (is_IOError e).
    + done.
Qed.

Lemma old_app_ids_none filter_name app_list :
  Forall (λ app, contains filter_name (app_id app) = false) app_list →
  old_app_ids filter_name app_list = [].
Proof.
  unfold old_app_ids. induction 1 as [|app apps Happ _ IH]; [done|].
  rewrite filter_cons_False; [done|]. rewrite Happ. by intros [].
Qed.

Lemma old_app_ids_some filter_name app_list :
  Exists (λ app, contains filter_name (app_id app) = true) app_list →
  ∃ id ids, old_app_ids filter_name app_list = id :: ids.
Proof.
  unfold old_app_ids. induction 1 as [app apps Happ|app apps _ IH].
  - rewrite filter_cons_True by (by rewrite Happ). simpl. eauto.
  - destruct IH as (id & ids & IH).
    destruct (contains filter_name (app_id app)) eqn:Happ.
    + rewrite filter_cons_True by (by rewrite Happ). simpl. eauto.
    + rewrite filter_cons_False by (rewrite Happ; by intros []). eauto.
Qed.

Lemma py_eq_str_false v s : v ≠ PStr s → py_eq_str v s = false.
Proof.
  destruct v as [| | |s'|]; try done. intros Hne. simpl.
  apply String.eqb_neq. congruence.
Qed.

(** C5. When the listing that [deploy_service] obtains holds no id that
    contains the stripped filter name, then, whatever the bounce method, the
    run calls the create-app operation exactly once, with the descriptor it
    was given, calls no bounce, and returns (0, "Service deployed.") as soon
    as that call returns (an error of the create call goes to the caller). *)
Theorem deploy_service_creates env h name config client bounce_method r t
    filter_name app_list :
  deploy_service name config client bounce_method env h = (r, t) →
  remove_iteration_from_job_id env name = Ok filter_name →
  EvListApps client (Ok app_list) ∈ t →
  Forall (λ app, contains filter_name (app_id app) = false) app_list →
  ∃ answer,
    t = [EvListApps client (Ok app_list); EvCreateApp client config answer] ∧
    count is_create_app t = 1 ∧
    count is_brutal_bounce t = 0 ∧
    r = match answer with
        | Ok _ => Done (0%Z, "Service deployed.")
        | Raise e => Raised e
        end.
Proof.
  rewrite deploy_service_run. intros Hrun Hf Hin Hnone.
  rewrite Hf in Hrun. revert Hrun Hin.
  destruct (client_list_apps env h client) as [app_list'|e]; cbv zeta.
  - destruct (old_app_ids filter_name app_list') as [|id ids] eqn:Hold.
    + intros [= <- <-] Hin.
      apply elem_of_cons in Hin as [[= ->]|Hin]; [|not_in_run Hin].
      eauto.
    + destruct (py_eq_str bounce_method "brutal"); intros [= <- <-] Hin.
      * apply elem_of_cons in Hin as [[= ->]|Hin]; [|not_in_run Hin].
        by rewrite (old_app_ids_none _ _ Hnone) in Hold.
      * apply list_elem_of_singleton in Hin as [= ->].
        by rewrite (old_app_ids_none _ _ Hnone) in Hold.
  - intros [= <- <-] Hin. not_in_run Hin.
Qed.

(** C5 where Marathon lists one app of another service. *)
Lemma deploy_service_creates_witness :
  let env := world "." (Raise (KeyError "'checkout.main.v1'"))
               [{| app_id := "billing.main.v7" |}] sample_monitoring in
  let run :=
    deploy_service "checkout.main.v1" (sample_config "checkout.main.v1")
      sample_client (PStr "graceful") env [] in
  remove_iteration_from_job_id env "checkout.main.v1" = Ok "checkout.main" ∧
  EvListApps sample_client (Ok [{| app_id := "billing.main.v7" |}]) ∈ run.2 ∧
  count is_create_app run.2 = 1 ∧
  run.1 = Done (0%Z, "Service deployed.").
Proof.
  intros env run.
  assert (Hf : remove_iteration_from_job_id env "checkout.main.v1"
               = Ok "checkout.main") by reflexivity.
  assert (Hin : EvListApps sample_client
                  (Ok [{| app_id := "billing.main.v7" |}]) ∈ run.2)
    by (vm_compute; left).
  assert (Hnone : Forall (λ app, contains "checkout.main" (app_id app) = false)
                    [{| app_id := "billing.main.v7" |}])
    by (repeat constructor).
  split; [exact Hf|]. split; [exact Hin|].
  destruct (deploy_service_creates env [] "checkout.main.v1"
              (sample_config "checkout.main.v1") sample_client
              (PStr "graceful") run.1 run.2 _ _
              (surjective_pairing run) Hf Hin Hnone)
    as (answer & Ht & Hcount & _ & Hr).
  split; [exact Hcount|]. vm_compute. reflexivity.
Defined.

(** C6. When the listing that [deploy_service] obtains holds an id that
    contains the stripped filter name and the bounce method is anything but
    "brutal", the run returns (1, "bounce_method not recognized: <value>")
    and does nothing after the listing: it calls neither create-app nor a
    bounce. *)
Theorem deploy_service_unrecognized env h name config client bounce_method
    r t filter_name app_list :
  deploy_service name config client bounce_method env h = (r, t) →
  remove_iteration_from_job_id env name = Ok filter_name →
  EvListApps client (Ok app_list) ∈ t →
  Exists (λ app, contains filter_name (app_id app) = true) app_list →
  bounce_method ≠ PStr "brutal" →
  r = Done (1%Z, "bounce_method not recognized: " +:+ py_str bounce_method) ∧
  t = [EvListApps client (Ok app_list)] ∧
  count is_create_app t = 0 ∧
  count is_brutal_bounce t = 0.
Proof.
  rewrite deploy_service_run. intros Hrun Hf Hin Hsome Hbm.
  rewrite Hf in Hrun. revert Hrun Hin.
  rewrite (py_eq_str_false _ _ Hbm).
  destruct (client_list_apps env h client) as [app_list'|e]; cbv zeta.
  - destruct (old_app_ids filter_name app_list') as [|id ids] eqn:Hold.
    + intros [= <- <-] Hin.
      apply elem_of_cons in Hin as [[= ->]|Hin]; [|not_in_run Hin].
      apply old_app_ids_some in Hsome as (id & ids & Hsome). congruence.
    + intros [= <- <-] Hin.
      apply list_elem_of_singleton in Hin as [= ->]. done.
  - intros [= <- <-] Hin. not_in_run Hin.
Qed.

(** C6 where Marathon lists the iteration v1 and the method is "graceful". *)
Lemma deploy_service_unrecognized_witness :
  let env := world "." (Raise (KeyError "'checkout.main.v2'"))
               [{| app_id := "checkout.main.v1" |}] sample_monitoring in
  let run :=
    deploy_service "checkout.main.v2" (sample_config "checkout.main.v2")
      sample_client (PStr "graceful") env [] in
  run.1 = Done (1%Z, "bounce_method not recognized: graceful") ∧
  run.2 = [EvListApps sample_client (Ok [{| app_id := "checkout.main.v1" |}])].
Proof.
  intros env run.
  assert (Hf : remove_iteration_from_job_id env "checkout.main.v2"
               = Ok "checkout.main") by reflexivity.
  assert (Hin : EvListApps sample_client
                  (Ok [{| app_id := "checkout.main.v1" |}]) ∈ run.2)
    by (vm_compute; left).
  assert (Hsome : Exists (λ app, contains "checkout.main" (app_id app) = true)
                    [{| app_id := "checkout.main.v1" |}])
    by (by left).
  assert (Hbm : PStr "graceful" ≠ PStr "brutal") by discriminate.
  destruct (deploy_service_unrecognized env [] "checkout.main.v2"
              (sample_config "checkout.main.v2") sample_client
              (PStr "graceful") run.1 run.2 _ _
              (surjective_pairing run) Hf Hin Hsome Hbm)
    as (Hr & Ht & _).
  split; [exact Hr|exact Ht].
Defined.

(** ** The descriptor builder *)

Lemma int_getter_run env h v (d : Z) :
  (if py_truthy v then env ← ask; lift (py_int env v) else mret d) env h =
  (of_result (if py_truthy v then py_int env v else Ok d), []).
Proof. by destruct (py_truthy v). Qed.

Lemma get_ports_run env h service_config :
  get_ports service_config env h =
  (of_result
     (if py_truthy (dict_get service_config "num_ports") then
        match py_int env (dict_get service_config "num_ports") with
        | Ok n => Ok (replicate (Z.to_nat n) 0%Z)
        | Raise e => Raise e
        end
      else Ok [0%Z]), []).
Proof.
  unfold get_ports. destruct (py_truthy _); [|done].
  run_step. run_step. by destruct (py_int env _).
Qed.

Lemma get_mem_run env h service_config :
  get_mem service_config env h =
  (of_result
     (if py_truthy (dict_get service_config "mem")
      then py_int env (dict_get service_config "mem") else Ok 100%Z), []).
Proof. apply int_getter_run. Qed.

Lemma get_cpus_run env h service_config :
  get_cpus service_config env h =
  (of_result
     (if py_truthy (dict_get service_config "cpus")
      then py_int env (dict_get service_config "cpus") else Ok 1%Z), []).
Proof. apply int_getter_run. Qed.

Lemma get_instances_run env h service_config :
  get_instances service_config env h =
  (of_result
     (if py_truthy (dict_get service_config "instances")
      then py_int env (dict_get service_config "instances") else Ok 1%Z), []).
Proof. apply int_getter_run. Qed.

(** A computation that made no call. *)
Lemma run_silent_bind {A B} (m : M A) (f : A → M B) env h x :
  m env h = (of_result x, []) →
  (m ≫= f) env h =
  match x with
  | Ok a => f a env h
  | Raise e => (Raised e, [])
  end.
Proof.
  intros Hm. rewrite run_bind, Hm. destruct x as [a|e]; [|done].
  simpl. rewrite app_nil_r. by destruct (f a env h).
Qed.

Lemma create_complete_config_run env h name url docker_options
    service_marathon_config :
  ∃ x,
    create_complete_config name url docker_options service_marathon_config
      env h = (of_result x, []) ∧
    ∀ c, x = Ok c →
      get_ports service_marathon_config env h = (Done (cfg_ports c), []) ∧
      get_mem service_marathon_config env h = (Done (cfg_mem c), []) ∧
      get_cpus service_marathon_config env h = (Done (cfg_cpus c), []) ∧
      cfg_id c = name ∧ cfg_container_image c = url ∧ cfg_uris c = [].
Proof.
  unfold create_complete_config.
  rewrite (run_silent_bind _ _ _ _ _ (get_ports_run _ _ _)).
  rewrite get_ports_run.
  destruct (if py_truthy (dict_get _ "num_ports") then _ else _)
    as [ports|e]; [|by exists (Raise e)].
  rewrite (run_silent_bind _ _ _ _ _ (get_mem_run _ _ _)).
  rewrite get_mem_run.
  destruct (if py_truthy (dict_get _ "mem") then _ else _)
    as [mem|e]; [|by exists (Raise e)].
  rewrite (run_silent_bind _ _ _ _ _ (get_cpus_run _ _ _)).
  rewrite get_cpus_run.
  destruct (if py_truthy (dict_get _ "cpus") then _ else _)
    as [cpus|e]; [|by exists (Raise e)].
  rewrite (run_silent_bind _ _ _ _ _ (get_instances_run _ _ _)).
  destruct (if py_truthy (dict_get _ "instances") then _ else _)
    as [instances|e]; [|by exists (Raise e)].
  eexists (Ok _). split; [reflexivity|]. by intros c [= <-].
Qed.

(** C2, as the code has it. For every service configuration record in which
    each of num_ports, mem and cpus is unset (absent or falsy) or is made a
    positive integer by int(): the three getters return, the ports list has
    length at least 1 and holds only the placeholder 0, mem and cpus are
    positive, the defaults are one port, mem 100 and cpus 1, and these are
    the values placed in the descriptor. *)
Theorem descriptor_resources env h service_config :
  unset_or_positive env (dict_get service_config "num_ports") →
  unset_or_positive env (dict_get service_config "mem") →
  unset_or_positive env (dict_get service_config "cpus") →
  ∃ ports mem cpus,
    get_ports service_config env h = (Done ports, []) ∧
    get_mem service_config env h = (Done mem, []) ∧
    get_cpus service_config env h = (Done cpus, []) ∧
    1 ≤ length ports ∧ Forall (λ port, port = 0%Z) ports ∧
    (0 < mem)%Z ∧ (0 < cpus)%Z ∧
    (py_truthy (dict_get service_config "num_ports") = false →
     ports = [0%Z]) ∧
    (py_truthy (dict_get service_config "mem") = false → mem = 100%Z) ∧
    (py_truthy (dict_get service_config "cpus") = false → cpus = 1%Z) ∧
    ∀ name url docker_options c t,
      create_complete_config name url docker_options service_config env h
      = (Done c, t) →
      cfg_ports c = ports ∧ cfg_mem c = mem ∧ cfg_cpus c = cpus.
Proof.
  intros Hports Hmem Hcpus.
  assert (∃ ports, get_ports service_config env h = (Done ports, []) ∧
            1 ≤ length ports ∧ Forall (λ port, port = 0%Z) ports ∧
            (py_truthy (dict_get service_config "num_ports") = false →
             ports = [0%Z])) as (ports & Hp & Hlen & Hzero & Hpd).
  { rewrite get_ports_run. destruct Hports as [->|(n & Hn & Hpos)].
    - eexists. split; [done|]. split_and!; [simpl; lia|by constructor|done].
    - rewrite Hn. destruct (py_truthy _); eexists; (split; [done|]).
      + split_and!; [|by apply Forall_replicate|done].
        rewrite length_replicate. lia.
      + split_and!; [simpl; lia|by constructor|done]. }
  assert (∃ mem, get_mem service_config env h = (Done mem, []) ∧ (0 < mem)%Z ∧
            (py_truthy (dict_get service_config "mem") = false →
             mem = 100%Z)) as (mem & Hm & Hmpos & Hmd).
  { rewrite get_mem_run. destruct Hmem as [->|(n & Hn & Hpos)].
    - by eexists.
    - rewrite Hn.
      destruct (py_truthy (dict_get service_config "mem")); eexists;
        (split; [done|]); (split; [lia|done]). }
  assert (∃ cpus, get_cpus service_config env h = (Done cpus, []) ∧
            (0 < cpus)%Z ∧
            (py_truthy (dict_get service_config "cpus") = false →
             cpus = 1%Z)) as (cpus & Hc & Hcpos & Hcd).
  { rewrite get_cpus_run. destruct Hcpus as [->|(n & Hn & Hpos)].
    - by eexists.
    - rewrite Hn.
      destruct (py_truthy (dict_get service_config "cpus")); eexists;
        (split; [done|]); (split; [lia|done]). }
  exists ports, mem, cpus. split_and!; try done.
  intros name url docker_options c t Hrun.
  destruct (create_complete_config_run env h name url docker_options
              service_config) as (x & Hx & Hfields).
  rewrite Hx in Hrun. destruct x as [c'|e]; [|discriminate Hrun].
  injection Hrun as -> <-.
  destruct (Hfields c eq_refl) as (Hp' & Hm' & Hc' & _).
  rewrite Hp in Hp'. rewrite Hm in Hm'. rewrite Hc in Hc'.
  by simplify_eq.
Qed.

(** C2 on a record with three ports, 512 of memory and cpus left at 0. *)
Lemma descriptor_resources_witness :
  let env := world "." (Ok ()) [] sample_monitoring in
  let service_config : gmap string pyval :=
    {[ "num_ports" := PInt 3; "mem" := PInt 512; "cpus" := PInt 0 ]} in
  unset_or_positive env (dict_get service_config "num_ports") ∧
  unset_or_positive env (dict_get service_config "mem") ∧
  unset_or_positive env (dict_get service_config "cpus") ∧
  ∃ ports mem cpus,
    get_ports service_config env [] = (Done ports, []) ∧
    get_mem service_config env [] = (Done mem, []) ∧
    get_cpus service_config env [] = (Done cpus, []) ∧
    1 ≤ length ports ∧ (0 < mem)%Z ∧ (0 < cpus)%Z.
Proof.
  intros env service_config.
  assert (Hports : unset_or_positive env (dict_get service_config "num_ports"))
    by (right; exists 3%Z; split; [reflexivity|lia]).
  assert (Hmem : unset_or_positive env (dict_get service_config "mem"))
    by (right; exists 512%Z; split; [reflexivity|lia]).
  assert (Hcpus : unset_or_positive env (dict_get service_config "cpus"))
    by (left; reflexivity).
  split; [exact Hports|]. split; [exact Hmem|]. split; [exact Hcpus|].
  destruct (descriptor_resources env [] service_config Hports Hmem Hcpus)
    as (ports & mem & cpus & Hp & Hm & Hc & Hlen & _ & Hmpos & Hcpos & _).
  exists ports, mem, cpus. repeat split; assumption.
Defined.

(** C2, as the claim has it, fails on a record with negative numbers:
    num_ports = -1 gives a descriptor with no port at all, and mem = -5,
    cpus = -2 are placed in the descriptor as they are. *)
Lemma descriptor_resources_counterexample :
  (create_complete_config "checkout.main.v1"
     "docker:///registry.local/checkout:latest" PNone
     {[ "num_ports" := PInt (-1); "mem" := PInt (-5); "cpus" := PInt (-2) ]}
     (world "." (Ok ()) [] sample_monitoring) []).1
  = Done {| cfg_id := "checkout.main.v1";
          cfg_container_image := "docker:///registry.local/checkout:latest";
          cfg_container_options := PNone;
          cfg_uris := [];
          cfg_ports := [];
          cfg_mem := -5;
          cfg_cpus := -2;
          cfg_constraints := PNone;
          cfg_instances := 1 |}.
Proof. vm_compute; reflexivity. Qed.

(** ** Check and deploy *)

Lemma deploy_service_calls env h name config client bounce_method :
  Forall (λ e, is_deploy_call e = true)
    (deploy_service name config client bounce_method env h).2.
Proof.
  rewrite deploy_service_run.
  destruct (remove_iteration_from_job_id env name); [|by constructor].
  destruct (client_list_apps env h client); [|by repeat constructor].
  cbv zeta. destruct (old_app_ids _ _); [by repeat constructor|].
  destruct (py_eq_str _ _); by repeat constructor.
Qed.

(** C4. In every run of [setup_service] in which the lookup of the exact
    full job id in the orchestrator succeeds, the function returns
    (0, "Service was already deployed.") and the lookup is the last thing it
    does: after the registry request and the lookup there is no listing of
    apps, no creation of an app and no bounce, so [deploy_service] did not
    run. *)
Theorem setup_service_already_deployed env h service_name instance_name
    client marathon_config service_marathon_config r t c id :
  setup_service service_name instance_name client marathon_config
    service_marathon_config env h = (r, t) →
  EvGetApp c id (Ok ()) ∈ t →
  r = Done (0%Z, "Service was already deployed.") ∧
  (∃ iteration,
     service_marathon_config !! "iteration" = Some iteration ∧
     compose_job_id env service_name instance_name iteration = Ok id) ∧
  (∃ url body, t = [EvCurlPerform url (Ok body); EvGetApp client id (Ok ())]) ∧
  count is_deploy_call t = 0.
Proof.
  unfold setup_service. run_step. run_step.
  destruct (dict_getitem service_marathon_config "iteration")
    as [iteration|e] eqn:Hiter; [|intros [= <- <-] Hin; not_in_run Hin].
  run_step. destruct (compose_job_id env _ _ _) as [full_id|e] eqn:Hid;
    [|intros [= <- <-] Hin; not_in_run Hin].
  run_step. destruct (remove_iteration_from_job_id env _) as [filter_name|e];
    [|intros [= <- <-] Hin; not_in_run Hin].
  run_step. destruct (dict_getitem marathon_config "docker_registry")
    as [docker_registry|e]; [|intros [= <- <-] Hin; not_in_run Hin].
  run_step. destruct (dict_getitem service_marathon_config "docker_image")
    as [docker_image|e]; [|intros [= <- <-] Hin; not_in_run Hin].
  rewrite run_bind, get_docker_url_run.
  destruct (str_split _ _) as [[|image_name [|image_tag parts]]|e];
    try (intros [= <- <-] Hin; not_in_run Hin).
  cbv zeta. destruct (curl_perform env h _) as [body|e];
    [|intros [= <- <-] Hin; not_in_run Hin].
  destruct (contains "error" body).
  - rewrite String.eqb_refl. run_step. intros [= <- <-] Hin. not_in_run Hin.
  - change (String.eqb _ EmptyString) with false. cbv iota.
    run_step. destruct (dict_getitem marathon_config "docker_options")
      as [docker_options|e]; [|intros [= <- <-] Hin; not_in_run Hin].
    match goal with |- context [create_complete_config ?a ?b ?c ?d] =>
      destruct (create_complete_config_run env
                  (h ++ [EvCurlPerform
                           ("http://" +:+ py_str docker_registry +:+
                            "/v1/repositories/" +:+ image_name +:+
                            "/tags/" +:+ image_tag) (Ok body)]) a b c d)
        as (x & Hx & _)
    end.
    rewrite (run_silent_bind _ _ _ _ _ Hx).
    destruct x as [complete_config|e];
      [|intros [= <- <-] Hin; not_in_run Hin].
    unfold try_except. run_step. rewrite run_call_bind.
    destruct (client_get_app env _ client full_id) as [[]|e].
    + intros [= <- <-] Hin.
      apply elem_of_cons in Hin as [Hin|Hin]; [discriminate Hin|].
      apply list_elem_of_singleton in Hin as [= -> ->].
      split_and!; [done| |by eauto|done].
      exists iteration. split; [|done].
      unfold dict_getitem in Hiter.
      by destruct (service_marathon_config !! "iteration"); simplify_eq.
    + destruct (is_KeyError e).
      * pose proof (deploy_service_calls env
          ((h ++ [EvCurlPerform
                    ("http://" +:+ py_str docker_registry +:+
                     "/v1/repositories/" +:+ image_name +:+
                     "/tags/" +:+ image_tag) (Ok body)]) ++
           [EvGetApp client full_id (Raise e)])
          full_id complete_config client
          (get_bounce_method service_marathon_config)) as Hcalls.
        destruct (deploy_service _ _ _ _ _ _) as [r1 t2].
        intros [= <- <-] Hin.
        apply elem_of_cons in Hin as [Hin|Hin]; [discriminate Hin|].
        apply elem_of_cons in Hin as [Hin|Hin]; [discriminate Hin|].
        rewrite Forall_forall in Hcalls. by apply Hcalls in Hin.
      * intros [= <- <-] Hin. not_in_run Hin.
Qed.

(** C4 where the lookup of "checkout.main.v1" succeeds. *)
Lemma setup_service_already_deployed_witness :
  let run :=
    setup_service "checkout" "main" sample_client sample_marathon_config
      sample_service_config (world "." (Ok ()) [] sample_monitoring) [] in
  EvGetApp sample_client "checkout.main.v1" (Ok ()) ∈ run.2 ∧
  run.1 = Done (0%Z, "Service was already deployed.") ∧
  count is_deploy_call run.2 = 0.
Proof.
  intros run.
  assert (Hin : EvGetApp sample_client "checkout.main.v1" (Ok ()) ∈ run.2)
    by (vm_compute; right; left).
  destruct (setup_service_already_deployed
              (world "." (Ok ()) [] sample_monitoring) [] "checkout" "main"
              sample_client sample_marathon_config sample_service_config
              run.1 run.2 _ _ (surjective_pairing run) Hin)
    as (Hr & _ & _ & Hcount).
  split; [exact Hin|]. split; [exact Hr|exact Hcount].
Defined.

(** ** The identity argument *)

Lemma split_go_length sep s skip cur : 1 ≤ length (split_go sep s skip cur).
Proof.
  revert skip cur.
  induction s as [|c s IH]; intros skip cur; cbn [split_go]; [simpl; lia|].
  destruct skip; [|apply IH].
  destruct (String.prefix sep (String c s)); [cbn [length]; lia|apply IH].
Qed.

Lemma string_app_assoc (a b c : string) : (a +:+ b) +:+ c = a +:+ b +:+ c.
Proof. induction a as [|x a IH]; [done|]. exact (f_equal (String x) IH). Qed.

Lemma string_app_empty_r (a : string) : a +:+ EmptyString = a.
Proof. induction a as [|x a IH]; [done|]. exact (f_equal (String x) IH). Qed.

(** Without the separator in it, the argument is a single part. *)
Lemma split_go_without sep s cur :
  contains sep s = false → split_go sep s 0 cur = [cur +:+ s].
Proof.
  revert cur. induction s as [|c s IH]; intros cur Hno; cbn [split_go].
  - by rewrite string_app_empty_r.
  - change (contains sep (String c s)) with
      (String.prefix sep (String c s) || contains sep s) in Hno.
    apply orb_false_iff in Hno as [Hpre Hno].
    rewrite Hpre, (IH _ Hno), string_app_assoc. done.
Qed.

(** With the separator in it, the argument has two parts at least. *)
Lemma split_go_with sep s cur :
  sep ≠ EmptyString → contains sep s = true →
  2 ≤ length (split_go sep s 0 cur).
Proof.
  intros Hsep. revert cur. induction s as [|c s IH]; intros cur Hyes.
  - destruct sep; [done|discriminate Hyes].
  - cbn [split_go]. change (contains sep (String c s)) with
      (String.prefix sep (String c s) || contains sep s) in Hyes.
    destruct (String.prefix sep (String c s)) eqn:Hpre.
    + cbn [length]. pose proof (split_go_length sep s (String.length sep - 1)
                                  EmptyString). lia.
    + apply IH. exact Hyes.
Qed.

Lemma contains_empty s : contains EmptyString s = true.
Proof. by destruct s. Qed.

(** The split has fewer than two parts exactly when the separator does not
    occur in the argument. *)
Lemma py_split_short s sep parts :
  py_split s sep = Ok parts →
  (length parts < 2 ↔ contains sep s = false).
Proof.
  unfold py_split. destruct (String.eqb sep EmptyString) eqn:Hsep; [done|].
  apply String.eqb_neq in Hsep. intros [= <-].
  destruct (contains sep s) eqn:Hc.
  - pose proof (split_go_with sep s EmptyString Hsep Hc). split; [lia|done].
  - rewrite (split_go_without _ _ _ Hc). simpl. split; [done|lia].
Qed.

Lemma py_split_without s sep :
  contains sep s = false → py_split s sep = Ok [s].
Proof.
  intros Hc. unfold py_split.
  destruct (String.eqb sep EmptyString) eqn:Hsep.
  - apply String.eqb_eq in Hsep as ->. by rewrite contains_empty in Hc.
  - by rewrite (split_go_without _ _ _ Hc).
Qed.

(** ** The entry point *)

Lemma main_run env h args :
  main args env h =
  match py_split (service_instance args) (ID_SPACER env) with
  | Raise e =>
      if is_IndexError e then (Exited 1, []) else (Raised e, [])
  | Ok (service_name :: instance_name :: _) =>
      main_deploy args service_name instance_name env h
  | Ok _ => (Exited 1, [])
  end.
Proof.
  unfold main. run_step. rewrite run_bind. unfold try_except.
  run_step. destruct (py_split _ _) as [parts|e].
  - run_step. destruct parts as [|service_name parts]; [done|]. simpl.
    run_step. run_step. destruct parts as [|instance_name parts]; [done|].
    simpl. rewrite app_nil_r.
    by destruct (main_deploy _ _ _ _ _).
  - by destruct (is_IndexError e).
Qed.

Lemma main_deploy_first_call env h args service_name instance_name :
  ∃ answer t,
    (main_deploy args service_name instance_name env h).2
    = EvGetConfig answer :: t.
Proof.
  unfold main_deploy, get_main_marathon_config. rewrite run_call_bind.
  destruct (marathon_tools_get_config env h) as [marathon_config|e];
    [|by eauto].
  match goal with |- context [let '(_, _) := ?run in _] =>
    destruct run as [r t]
  end.
  by eauto.
Qed.

(** C10. For every identity argument that the split on the shared separator
    cuts into two parts or more (empty parts included), [main] goes on to the
    deployment with the first part as the service name and the second part as
    the instance name, whatever parts follow: its first call reads the
    orchestrator configuration. [main] leaves with status 1 before any call
    exactly when the split yields fewer than two parts. *)
Theorem main_accepts_two_or_more env h args parts :
  py_split (service_instance args) (ID_SPACER env) = Ok parts →
  (2 ≤ length parts →
   ∃ service_name instance_name rest,
     parts = service_name :: instance_name :: rest ∧
     main args env h = main_deploy args service_name instance_name env h ∧
     ∃ answer t, (main args env h).2 = EvGetConfig answer :: t) ∧
  (main args env h = (Exited 1, []) ↔ length parts < 2).
Proof.
  intros Hsplit. rewrite main_run, Hsplit.
  destruct parts as [|service_name [|instance_name rest]].
  - split; [simpl; lia|]. split; [simpl; lia|done].
  - split; [simpl; lia|]. split; [simpl; lia|done].
  - split.
    + intros _. exists service_name, instance_name, rest.
      split; [done|]. split; [done|]. apply main_deploy_first_call.
    + destruct (main_deploy_first_call env h args service_name instance_name)
        as (answer & t & Ht).
      split; [|simpl; lia]. intros Hrun. rewrite Hrun in Ht. discriminate Ht.
Qed.

(** C10 on the argument "a.b.c". *)
Lemma main_accepts_two_or_more_witness :
  let env := world "." (Ok ()) [] sample_monitoring in
  let args := {| service_instance := "a.b.c"; soa_dir := "/nail/soa";
                 verbose := false |} in
  py_split (service_instance args) (ID_SPACER env) = Ok ["a"; "b"; "c"] ∧
  main args env [] = main_deploy args "a" "b" env [].
Proof.
  intros env args.
  assert (Hsplit : py_split (service_instance args) (ID_SPACER env)
                   = Ok ["a"; "b"; "c"]) by reflexivity.
  split; [exact Hsplit|].
  destruct (main_accepts_two_or_more env [] args ["a"; "b"; "c"] Hsplit)
    as [Hgo _].
  destruct (Hgo ltac:(simpl; lia))
    as (service_name & instance_name & rest & Hparts & Hmain & _).
  injection Hparts as <- <- _. exact Hmain.
Defined.

(** C1, as the code has it. For every identity argument that does not
    contain the shared separator, so that the split yields fewer than two
    parts, [main] leaves with status 1 before any call: no alert is sent.
    (An argument with more than two parts, or with an empty part, is not
    rejected.) *)
Theorem main_rejects_unsplit env h args :
  contains (ID_SPACER env) (service_instance args) = false ∨
  (∃ parts, py_split (service_instance args) (ID_SPACER env) = Ok parts ∧
            length parts < 2) →
  main args env h = (Exited 1, []) ∧
  exit_status (main args env h).1 = 1%Z ∧
  count is_send_event (main args env h).2 = 0.
Proof.
  intros Hshort.
  assert (main args env h = (Exited 1, [])) as ->; [|done].
  destruct Hshort as [Hno|(parts & Hsplit & Hlen)].
  - by rewrite main_run, (py_split_without _ _ Hno).
  - rewrite main_run, Hsplit.
    destruct parts as [|service_name [|instance_name rest]];
      [done|done|simpl in Hlen; lia].
Qed.

(** C1 on the argument "checkout". *)
Lemma main_rejects_unsplit_witness :
  let env := world "." (Ok ()) [] sample_monitoring in
  let args := {| service_instance := "checkout"; soa_dir := "/nail/soa";
                 verbose := false |} in
  contains (ID_SPACER env) (service_instance args) = false ∧
  main args env [] = (Exited 1, []).
Proof.
  intros env args.
  assert (Hno : contains (ID_SPACER env) (service_instance args) = false)
    by reflexivity.
  split; [exact Hno|].
  exact (proj1 (main_rejects_unsplit env [] args (or_introl Hno))).
Defined.

(** C1, as the claim has it, fails on "a.b.c" (three parts) and on ".main"
    (an empty part): neither is an argument of exactly two non-empty parts,
    and in a world where the instance is already deployed [main] leaves with
    status 0 after sending one alert. *)
Lemma main_rejects_unsplit_counterexample :
  let env := world "." (Ok ()) [] sample_monitoring in
  let run arg :=
    main {| service_instance := arg; soa_dir := "/nail/soa";
            verbose := false |} env [] in
  (py_split "a.b.c" "." = Ok ["a"; "b"; "c"] ∧
   exit_status (run "a.b.c").1 = 0%Z ∧
   count is_send_event (run "a.b.c").2 = 1) ∧
  (py_split ".main" "." = Ok [EmptyString; "main"] ∧
   exit_status (run ".main").1 = 0%Z ∧
   count is_send_event (run ".main").2 = 1).
Proof. vm_compute. done. Qed.

(** ** The attempts to report *)

Lemma quiet_bind {A B} P (m : M A) (f : A → M B) env h :
  quiet P (m env h) → (∀ a h', quiet P (f a env h')) →
  quiet P ((m ≫= f) env h).
Proof.
  intros [Hm1 Hm2] Hf. rewrite run_bind.
  destruct (m env h) as [[a|e|code] t1]; simpl in *.
  - specialize (Hf a (h ++ t1)). destruct (f a env (h ++ t1)) as [r t2].
    destruct Hf as [Hf1 Hf2]. split; [done|]. by apply Forall_app.
  - by split.
  - by destruct (Hm1 code).
Qed.

Lemma quiet_try_except {A} P (m : M A) catches handler env h :
  quiet P (m env h) → (∀ e h', quiet P (handler e env h')) →
  quiet P (try_except m catches handler env h).
Proof.
  intros [Hm1 Hm2] Hh. unfold try_except.
  destruct (m env h) as [[a|e|code] t1]; simpl in *; [by split| |by split].
  destruct (catches e); [|by split].
  specialize (Hh e (h ++ t1)). destruct (handler e env (h ++ t1)) as [r t2].
  destruct Hh as [Hh1 Hh2]. split; [done|]. by apply Forall_app.
Qed.

Lemma quiet_lift {A} P (x : result A) env h : quiet P (lift x env h).
Proof. split; [intros code; by destruct x|constructor]. Qed.

Lemma quiet_ret {A} P (a : A) env h : quiet P ((mret a : M A) env h).
Proof. by split; [|constructor]. Qed.

Lemma quiet_ask P env h : quiet P (ask env h).
Proof. by split; [|constructor]. Qed.

Lemma quiet_call {A} (P : event → Prop) answer (ev : result A → event) env h :
  (∀ r, P (ev r)) → quiet P (call answer ev env h).
Proof.
  intros Hev. unfold call. split; simpl.
  - intros code. by destruct (answer env h).
  - by repeat constructor.
Qed.

Ltac quiet_steps :=
  repeat first
    [ apply quiet_lift | apply quiet_ret | apply quiet_ask
    | apply quiet_call; by intros
    | apply quiet_bind; [|intros ? ?]
    | apply quiet_try_except; [|intros ? ?]
    | match goal with
      | |- quiet _ ((if ?b then _ else _) _ _) => destruct b
      | |- quiet _ ((match ?x with _ => _ end) _ _) => destruct x
      end ].

(** [setup_service] never reports and never leaves the process. *)
Lemma setup_service_quiet env h service_name instance_name client
    marathon_config service_marathon_config :
  quiet not_alert_call
    (setup_service service_name instance_name client marathon_config
       service_marathon_config env h).
Proof.
  unfold setup_service, get_docker_url, create_complete_config, get_ports,
    get_mem, get_cpus, get_instances, deploy_service.
  quiet_steps.
Qed.

Lemma send_sensu_event_attempt env h name instance soa_dir status output :
  let x := send_sensu_event name instance soa_dir status output env h in
  alert_attempts x.2 = 1 ∧
  count is_send_event x.2 ≤ 1 ∧
  (∀ code, x.1 ≠ Exited code) ∧
  (∀ e, x.1 = Raised e → is_Key_Type_ValueError e = true →
        Exists (λ ev, alert_data_error ev = true) x.2).
Proof.
  cbv zeta. rewrite send_sensu_event_run. cbv zeta.
  destruct (read_monitoring env h _) as [conf|e]; simpl.
  - destruct (py_truthy (dict_get conf "team")); simpl.
    + destruct (pysensu_yelp_send_event _ _ _ _ _ _ _ _) as [[]|e] eqn:Hans.
      * simpl. split_and!; [done|lia|done|done].
      * simpl. split_and!; [done|lia|by destruct (is_TypeError e)|].
        intros e'. destruct (is_TypeError e) eqn:Hty; [done|].
        intros [= <-] Hdata. apply Exists_cons_tl, Exists_cons_hd.
        simpl. by rewrite Hdata, Hty.
    + simpl. split_and!; [done|lia|done|done].
  - simpl. split_and!; [done|lia|done|].
    intros e' [= <-] Hdata. by apply Exists_cons_hd.
Qed.

Lemma count_not_alert t :
  Forall not_alert_call t →
  alert_attempts t = 0 ∧ count is_send_event t = 0.
Proof.
  unfold alert_attempts. induction 1 as [|e t [Hread Hsend] _ [IH1 IH2]];
    [done|]. simpl. rewrite Hread, Hsend. lia.
Qed.

Lemma reports_once_bind {A B} (m : M A) (f : A → M B) env h :
  quiet not_alert_call (m env h) →
  (∀ a h', reports_once (f a env h')) →
  reports_once ((m ≫= f) env h).
Proof.
  intros [Hexit Hcalls] Hf. rewrite run_bind.
  apply count_not_alert in Hcalls as [Hatt Hsend].
  destruct (m env h) as [[a|e|code] t1]; simpl in *.
  - specialize (Hf a (h ++ t1)). destruct (f a env (h ++ t1)) as [r t2].
    intros Hclean. simpl in *. apply Forall_app in Hclean as [_ Hclean].
    specialize (Hf Hclean). unfold alert_attempts in *.
    rewrite !count_app. rewrite Hatt, Hsend. simpl. done.
  - intros _. simpl. rewrite Hatt, Hsend. split_and!; [lia|lia|done].
  - by destruct (Hexit code).
Qed.

Lemma reports_once_send_exit env h name instance soa_dir status output code :
  reports_once
    ((send_sensu_event name instance soa_dir status output ≫=
      λ _, sys_exit code) env h : outcome unit * list event).
Proof.
  rewrite run_bind.
  pose proof (send_sensu_event_attempt env h name instance soa_dir status
                output) as (Hatt & Hsend & Hexit & _).
  destruct (send_sensu_event _ _ _ _ _ _ _) as [[[]|e|c] t1]; simpl in *.
  - intros _. simpl. rewrite app_nil_r. split_and!; [lia|lia|done].
  - intros _. simpl. split_and!; [lia|lia|done].
  - by destruct (Hexit c).
Qed.

Lemma reports_once_try env h args service_name instance_name client
    marathon_config service_instance_config :
  reports_once
    (try_except
       ('(status, output) ←
          setup_service service_name instance_name client marathon_config
            service_instance_config;
        let sensu_status :=
          if (status =? 0)%Z then Status_OK else Status_CRITICAL in
        send_sensu_event service_name instance_name (soa_dir args)
          sensu_status output;;
        sys_exit status)
       is_Key_Type_ValueError
       (λ e,
          send_sensu_event service_name instance_name (soa_dir args)
            Status_CRITICAL (exn_str e);;
          sys_exit 1) env h : outcome unit * list event).
Proof.
  unfold try_except. rewrite run_bind.
  pose proof (setup_service_quiet env h service_name instance_name client
                marathon_config service_instance_config) as [Hexit Hcalls].
  apply count_not_alert in Hcalls as [Hatt0 Hsend0].
  destruct (setup_service _ _ _ _ _ _ _) as [[[status output]|e|c] ts];
    simpl in *.
  - rewrite run_bind.
    pose proof (send_sensu_event_attempt env (h ++ ts) service_name
                  instance_name (soa_dir args)
                  (if (status =? 0)%Z then Status_OK else Status_CRITICAL)
                  output) as (Hatt & Hsend & Hexit1 & Hdata).
    destruct (send_sensu_event _ _ _ _ _ _ _) as [[[]|e|c] t1]; simpl in *.
    + rewrite app_nil_r. intros _. simpl. unfold alert_attempts in *.
      rewrite !count_app, Hatt0, Hsend0. simpl.
      split_and!; [lia|lia|done].
    + destruct (is_Key_Type_ValueError e) eqn:Hkind.
      * match goal with |- context [let '(_, _) := ?run in _] =>
          destruct run as [r2 t2]
        end.
        intros Hclean. simpl in Hclean.
        apply Forall_app in Hclean as [Hclean _].
        apply Forall_app in Hclean as [_ Hclean].
        specialize (Hdata e eq_refl Hkind).
        apply Exists_exists in Hdata as (ev & Hin & Hev).
        rewrite Forall_forall in Hclean. specialize (Hclean ev Hin).
        congruence.
      * intros _. simpl. unfold alert_attempts in *.
        rewrite !count_app, Hatt0, Hsend0. simpl.
        split_and!; [lia|lia|done].
    + by destruct (Hexit1 c).
  - destruct (is_Key_Type_ValueError e).
    + pose proof (reports_once_send_exit env (h ++ ts) service_name
                    instance_name (soa_dir args) Status_CRITICAL (exn_str e)
                    1%Z) as Hhandler.
      match goal with |- context [let '(_, _) := ?run in _] =>
        destruct run as [r2 t2]
      end.
      intros Hclean. simpl in *. apply Forall_app in Hclean as [_ Hclean].
      specialize (Hhandler Hclean). unfold alert_attempts in *.
      rewrite !count_app, Hatt0, Hsend0. simpl. done.
    + intros _. simpl. rewrite Hatt0, Hsend0. split_and!; [lia|lia|done].
  - by destruct (Hexit c).
Qed.

Lemma main_deploy_reports_once env h args service_name instance_name :
  reports_once (main_deploy args service_name instance_name env h).
Proof.
  unfold main_deploy, get_main_marathon_config, get_marathon_client.
  repeat (apply reports_once_bind; [by quiet_steps|intros ? ?]).
  destruct (config_truthy _).
  - apply reports_once_try.
  - apply reports_once_bind; [by quiet_steps|intros ? ?].
    apply reports_once_send_exit.
Qed.

(** C9, as the code has it. In every run of [main] in which the monitoring
    reader and the alert client raise no missing-key, wrong-type or
    invalid-value error: the report is attempted at most once, and no more
    events are sent than attempts are made; it is attempted exactly once when
    the identity argument holds the separator and the run ends in [sys.exit]
    (a success, a handled failure, or a data error caught at the top); it is
    not attempted at all when the identity argument is rejected. *)
Theorem main_alert_attempts env h args r t :
  main args env h = (r, t) →
  Forall (λ e, alert_data_error e = false) t →
  alert_attempts t ≤ 1 ∧
  count is_send_event t ≤ alert_attempts t ∧
  (∀ code, r = Exited code →
     contains (ID_SPACER env) (service_instance args) = true →
     alert_attempts t = 1) ∧
  (contains (ID_SPACER env) (service_instance args) = false →
   r = Exited 1 ∧ alert_attempts t = 0).
Proof.
  rewrite main_run. unfold py_split.
  destruct (String.eqb (ID_SPACER env) EmptyString) eqn:Hsep.
  - apply String.eqb_eq in Hsep. rewrite Hsep, contains_empty. simpl.
    intros [= <- <-] _. unfold alert_attempts. simpl.
    split_and!; [lia|lia|done|done].
  - apply String.eqb_neq in Hsep.
    destruct (contains (ID_SPACER env) (service_instance args)) eqn:Hc.
    + pose proof (split_go_with _ _ EmptyString Hsep Hc) as Hlen.
      destruct (split_go _ _ _ _) as [|service_name [|instance_name rest]];
        [simpl in Hlen; lia..|].
      intros Hrun Hclean.
      pose proof (main_deploy_reports_once env h args service_name
                    instance_name) as Honce.
      rewrite Hrun in Honce. destruct (Honce Hclean) as (H1 & H2 & H3).
      split_and!; [done|done|by intros code -> _; apply (H3 code)|done].
    + rewrite (split_go_without _ _ _ Hc).
      intros [= <- <-] _. unfold alert_attempts. simpl.
      split_and!; [lia|lia|done|done].
Qed.

(** C9 on a run that finds the instance already deployed. *)
Lemma main_alert_attempts_witness :
  let env := world "." (Ok ()) [] sample_monitoring in
  let args := {| service_instance := "checkout.main"; soa_dir := "/nail/soa";
                 verbose := false |} in
  let run := main args env [] in
  Forall (λ e, alert_data_error e = false) run.2 ∧
  run.1 = Exited 0 ∧
  alert_attempts run.2 = 1.
Proof.
  intros env args run.
  assert (Hclean : Forall (λ e, alert_data_error e = false) run.2)
    by (vm_compute; repeat constructor).
  assert (Hexit : run.1 = Exited 0) by (vm_compute; reflexivity).
  split; [exact Hclean|]. split; [exact Hexit|].
  destruct (main_alert_attempts env [] args run.1 run.2
              (surjective_pairing run) Hclean) as (_ & _ & Honce & _).
  exact (Honce 0%Z Hexit eq_refl).
Defined.

(** C9, as the claim has it, fails: a run that rejects the identity
    "checkout" ends with status 1 and makes no attempt to report, and a run
    whose lookup in the orchestrator fails with an error that is not a data
    error ends with that error and no attempt either. *)
Lemma main_alert_attempts_counterexample :
  let run found arg :=
    main {| service_instance := arg; soa_dir := "/nail/soa";
            verbose := false |}
      (world "." found [] sample_monitoring) [] in
  (exit_status (run (Ok ()) "checkout").1 = 1%Z ∧
   alert_attempts (run (Ok ()) "checkout").2 = 0) ∧
  ((run (Raise (OtherError "MarathonHttpError")) "checkout.main").1
   = Raised (OtherError "MarathonHttpError") ∧
   alert_attempts (run (Raise (OtherError "MarathonHttpError"))
                     "checkout.main").2 = 0).
Proof. vm_compute. done. Qed.

(** The proviso on the alert collaborators is needed: [send_sensu_event] is called
    inside the [try] of [main], so when the alert client refuses the event of
    a successful deployment with a [ValueError], the handler reports a second
    time (and the second refusal ends the run). *)
Example main_reports_twice :
  let env := world_refusing_alerts (world "." (Ok ()) [] sample_monitoring)
               (ValueError "Name cannot contain special characters") in
  let run :=
    main {| service_instance := "checkout.main"; soa_dir := "/nail/soa";
            verbose := false |} env [] in
  run.1 = Raised (ValueError "Name cannot contain special characters") ∧
  alert_attempts run.2 = 2 ∧
  count is_send_event run.2 = 2.
Proof. vm_compute. done. Qed.

(** * More of the script *)

(** ** Check and deploy, step by step *)

Lemma setup_service_run env h service_name instance_name client
    marathon_config service_marathon_config :
  setup_service service_name instance_name client marathon_config
    service_marathon_config env h =
  match dict_getitem service_marathon_config "iteration" with
  | Raise e => (Raised e, [])
  | Ok iteration =>
  match compose_job_id env service_name instance_name iteration with
  | Raise e => (Raised e, [])
  | Ok full_id =>
  match remove_iteration_from_job_id env full_id with
  | Raise e => (Raised e, [])
  | Ok _ =>
  match dict_getitem marathon_config "docker_registry" with
  | Raise e => (Raised e, [])
  | Ok docker_registry =>
  match dict_getitem service_marathon_config "docker_image" with
  | Raise e => (Raised e, [])
  | Ok docker_image =>
  match get_docker_url docker_registry docker_image env h with
  | (Raised e, tu) => (Raised e, tu)
  | (Exited code, tu) => (Exited code, tu)
  | (Done docker_url, tu) =>
      if String.eqb docker_url EmptyString then
        (Done (1%Z, "Docker image not found: " +:+ py_str docker_image), tu)
      else
        match dict_getitem marathon_config "docker_options" with
        | Raise e => (Raised e, tu)
        | Ok docker_options =>
        match (create_complete_config full_id docker_url docker_options
                 service_marathon_config env (h ++ tu)).1 with
        | Raised e => (Raised e, tu)
        | Exited code => (Exited code, tu)
        | Done complete_config =>
            let answer := client_get_app env (h ++ tu) client full_id in
            let looked := EvGetApp client full_id answer in
            match answer with
            | Ok _ =>
                (Done (0%Z, "Service was already deployed."), tu ++ [looked])
            | Raise e =>
                if is_KeyError e then
                  let '(rd, td) :=
                    deploy_service full_id complete_config client
                      (get_bounce_method service_marathon_config) env
                      ((h ++ tu) ++ [looked]) in
                  (rd, tu ++ looked :: td)
                else (Raised e, tu ++ [looked])
            end
        end
        end
  end
  end end end end end.
Proof.
  unfold setup_service. run_step. run_step.
  destruct (dict_getitem service_marathon_config "iteration")
    as [iteration|e]; [|done].
  run_step. destruct (compose_job_id env _ _ _) as [full_id|e]; [|done].
  run_step. destruct (remove_iteration_from_job_id env _) as [filter_name|e];
    [|done].
  run_step. destruct (dict_getitem marathon_config "docker_registry")
    as [docker_registry|e]; [|done].
  run_step. destruct (dict_getitem service_marathon_config "docker_image")
    as [docker_image|e]; [|done].
  rewrite run_bind.
  destruct (get_docker_url docker_registry docker_image env h)
    as [[docker_url|e|code] tu]; [|done|done].
  destruct (String.eqb docker_url EmptyString).
  - run_step. simpl. by rewrite app_nil_r.
  - run_step. destruct (dict_getitem marathon_config "docker_options")
      as [docker_options|e]; [|simpl; by rewrite app_nil_r].
    destruct (create_complete_config_run env (h ++ tu) full_id docker_url
                docker_options service_marathon_config) as (x & Hx & _).
    rewrite (run_silent_bind _ _ _ _ _ Hx), Hx.
    destruct x as [complete_config|e]; [|simpl; by rewrite app_nil_r].
    unfold try_except. run_step. rewrite run_call_bind. cbv zeta.
    destruct (client_get_app env (h ++ tu) client full_id) as [[]|e]; simpl.
    + done.
    + destruct (is_KeyError e); [|done].
      by destruct (deploy_service _ _ _ _ _ _).
Qed.

(** ** Replacing earlier iterations *)

Lemma elem_of_old_app_ids filter_name app_list id :
  id ∈ old_app_ids filter_name app_list ↔
  ∃ app, app ∈ app_list ∧ app_id app = id ∧ contains filter_name id = true.
Proof.
  unfold old_app_ids. rewrite list_elem_of_fmap. split.
  - intros (app & -> & Hin). apply list_elem_of_filter in Hin as [Hc Hin].
    exists app. split_and!; [done..|]. by apply Is_true_true.
  - intros (app & Hin & <- & Hc). exists app. split; [done|].
    apply list_elem_of_filter. split; [|done]. by apply Is_true_true.
Qed.

(** X1. When the listing holds an id that contains the stripped filter name
    and the bounce method is "brutal", [deploy_service] hands the bounce
    library exactly the listed ids that contain the filter name, in the order
    of the listing, together with the descriptor and the client it was given;
    it makes that one call after the listing, creates no app itself, and
    returns (0, "Service deployed.") when the bounce returns. *)
Theorem deploy_service_bounces env h name config client r t filter_name
    app_list :
  deploy_service name config client (PStr "brutal") env h = (r, t) →
  remove_iteration_from_job_id env name = Ok filter_name →
  EvListApps client (Ok app_list) ∈ t →
  Exists (λ app, contains filter_name (app_id app) = true) app_list →
  ∃ answer,
    t = [EvListApps client (Ok app_list);
         EvBrutalBounce (old_app_ids filter_name app_list) config client
           answer] ∧
    (∀ id, id ∈ old_app_ids filter_name app_list ↔
           ∃ app, app ∈ app_list ∧ app_id app = id ∧
                  contains filter_name id = true) ∧
    count is_create_app t = 0 ∧
    (answer = Ok () → r = Done (0%Z, "Service deployed.")).
Proof.
  rewrite deploy_service_run. intros Hrun Hf Hin Hsome.
  rewrite Hf in Hrun. revert Hrun Hin.
  destruct (client_list_apps env h client) as [app_list'|e]; cbv zeta.
  - destruct (old_app_ids filter_name app_list') as [|id ids] eqn:Hold.
    + intros [= <- <-] Hin.
      apply elem_of_cons in Hin as [[= ->]|Hin]; [|not_in_run Hin].
      apply old_app_ids_some in Hsome as (id & ids & Hsome). congruence.
    + simpl. intros [= <- <-] Hin.
      apply elem_of_cons in Hin as [[= ->]|Hin]; [|not_in_run Hin].
      rewrite Hold. eexists. split_and!; [done| |done|by intros ->].
      intros id'. rewrite <- Hold. apply elem_of_old_app_ids.
  - intros [= <- <-] Hin. not_in_run Hin.
Qed.

(** X1 where Marathon lists two iterations of the instance and one app of
    another service. *)
Lemma deploy_service_bounces_witness :
  let apps := [{| app_id := "checkout.main.v1" |};
               {| app_id := "billing.main.v7" |};
               {| app_id := "checkout.main.v0" |}] in
  let env := world "." not_found apps sample_monitoring in
  let run :=
    deploy_service "checkout.main.v2" (sample_config "checkout.main.v2")
      sample_client (PStr "brutal") env [] in
  run.2 = [EvListApps sample_client (Ok apps);
           EvBrutalBounce ["checkout.main.v1"; "checkout.main.v0"]
             (sample_config "checkout.main.v2") sample_client (Ok ())] ∧
  run.1 = Done (0%Z, "Service deployed.").
Proof.
  intros apps env run.
  assert (Hf : remove_iteration_from_job_id env "checkout.main.v2"
               = Ok "checkout.main") by reflexivity.
  assert (Hin : EvListApps sample_client (Ok apps) ∈ run.2)
    by (vm_compute; left).
  assert (Hsome : Exists (λ app, contains "checkout.main" (app_id app) = true)
                    apps) by (by left).
  destruct (deploy_service_bounces env [] "checkout.main.v2"
              (sample_config "checkout.main.v2") sample_client run.1 run.2
              _ _ (surjective_pairing run) Hf Hin Hsome)
    as (answer & Ht & _ & _ & Hr).
  split; [reflexivity|]. reflexivity.
Defined.

(** X2. When the bounce that [deploy_service] asked for raises an [IOError]
    (the instance is already being bounced), the function returns
    (1, "Service is taking a while to bounce"); any other error of the bounce
    goes to the caller. No app is created in either case. *)
Theorem deploy_service_bounce_error env h name config client bounce_method
    r t ids cfg c e :
  deploy_service name config client bounce_method env h = (r, t) →
  EvBrutalBounce ids cfg c (Raise e) ∈ t →
  r = (if is_IOError e
       then Done (1%Z, "Service is taking a while to bounce")
       else Raised e) ∧
  count is_create_app t = 0.
Proof.
  rewrite deploy_service_run.
  destruct (remove_iteration_from_job_id env name) as [filter_name|e'];
    [|intros [= <- <-] Hin; not_in_run Hin].
  destruct (client_list_apps env h client) as [app_list|e']; cbv zeta;
    [|intros [= <- <-] Hin; not_in_run Hin].
  destruct (old_app_ids filter_name app_list) as [|id old];
    [intros [= <- <-] Hin; not_in_run Hin|].
  destruct (py_eq_str bounce_method "brutal");
    [|intros [= <- <-] Hin; not_in_run Hin].
  simpl. intros [= <- <-] Hin.
  apply elem_of_cons in Hin as [Hin|Hin]; [discriminate Hin|].
  apply list_elem_of_singleton in Hin as [= _ _ _ Hans].
  rewrite <- Hans. done.
Qed.

Lemma deploy_service_bounce_error_witness :
  let apps := [{| app_id := "checkout.main.v1" |}] in
  let env := constant_world "." (Ok sample_marathon_config)
               (Ok (Some sample_service_config)) (Ok "{}") not_found
               (Ok apps) (Ok ()) (Raise IOError) (Ok sample_monitoring)
               (Ok ()) in
  let run :=
    deploy_service "checkout.main.v2" (sample_config "checkout.main.v2")
      sample_client (PStr "brutal") env [] in
  EvBrutalBounce ["checkout.main.v1"] (sample_config "checkout.main.v2")
    sample_client (Raise IOError) ∈ run.2 ∧
  run.1 = Done (1%Z, "Service is taking a while to bounce").
Proof.
  intros apps env run.
  assert (Hin : EvBrutalBounce ["checkout.main.v1"]
                  (sample_config "checkout.main.v2") sample_client
                  (Raise IOError) ∈ run.2) by (vm_compute; right; left).
  split; [exact Hin|].
  exact (proj1 (deploy_service_bounce_error env [] "checkout.main.v2"
                  (sample_config "checkout.main.v2") sample_client
                  (PStr "brutal") run.1 run.2 _ _ _ _
                  (surjective_pairing run) Hin)).
Defined.

(** How a run of [deploy_service] can look. *)
Lemma deploy_service_shape env h name config client bounce_method :
  let x := deploy_service name config client bounce_method env h in
  count is_list_apps x.2 ≤ 1 ∧
  count is_change x.2 ≤ 1 ∧
  count is_get_app x.2 = 0 ∧
  (∀ code, x.1 ≠ Exited code) ∧
  (∀ status msg, x.1 = Done (status, msg) →
     (status = 0%Z ∧ msg = "Service deployed." ∧
      count orchestrator_said_yes x.2 = 1) ∨ status = 1%Z).
Proof.
  cbv zeta. rewrite deploy_service_run.
  destruct (remove_iteration_from_job_id env name) as [filter_name|e];
    [|simpl; split_and!; [lia|lia|done|done|done]].
  destruct (client_list_apps env h client) as [app_list|e]; cbv zeta;
    [|simpl; split_and!; [lia|lia|done|done|done]].
  destruct (old_app_ids filter_name app_list) as [|id old].
  - destruct (client_create_app env _ client config) as [[]|e]; simpl;
      (split_and!; [lia|lia|done|done|]).
    + intros status msg [= <- <-]. by left.
    + done.
  - destruct (py_eq_str bounce_method "brutal").
    + destruct (bounce_lib_brutal_bounce env _ _ config client) as [[]|e];
        simpl.
      * split_and!; [lia|lia|done|done|].
        intros status msg [= <- <-]. by left.
      * destruct (is_IOError e); simpl;
          (split_and!; [lia|lia|done|done|]).
        -- intros status msg [= <- <-]. by right.
        -- done.
    + simpl. split_and!; [lia|lia|done|done|].
      intros status msg [= <- <-]. by right.
Qed.


(** ** The ways through [setup_service] *)

Lemma get_docker_url_shape env h registry_uri docker_image :
  let x := get_docker_url registry_uri docker_image env h in
  (x.2 = [] ∧ ∃ e, x.1 = Raised e) ∨
  ∃ url answer,
    x.2 = [EvCurlPerform url answer] ∧
    x.1 = match answer with
          | Ok body =>
              Done (if contains "error" body then EmptyString
                    else "docker:///" +:+ py_str registry_uri +:+ "/"
                         +:+ py_str docker_image)
          | Raise e => Raised e
          end.
Proof.
  cbv zeta. rewrite get_docker_url_run.
  destruct (str_split _ _) as [[|image_name [|image_tag parts]]|e];
    try (left; by eauto).
  cbv zeta. right. destruct (curl_perform env h _) as [body|e] eqn:Hans;
    by eauto.
Qed.

(** Either [setup_service] fails before it asks the registry, or the
    registry request fails, or the image is not there, or building the
    descriptor fails, or the exact id is looked up; after the lookup the
    function is done, unless the lookup raised [KeyError]: then it goes on
    as [deploy_service]. *)
Lemma setup_service_shape env h service_name instance_name client
    marathon_config service_marathon_config :
  let x := setup_service service_name instance_name client marathon_config
             service_marathon_config env h in
  (x.2 = [] ∧ ∃ e, x.1 = Raised e) ∨
  (∃ url e, x = (Raised e, [EvCurlPerform url (Raise e)])) ∨
  (∃ url body docker_image,
     contains "error" body = true ∧
     service_marathon_config !! "docker_image" = Some docker_image ∧
     x = (Done (1%Z, "Docker image not found: " +:+ py_str docker_image),
          [EvCurlPerform url (Ok body)])) ∨
  (∃ url body e,
     contains "error" body = false ∧
     x = (Raised e, [EvCurlPerform url (Ok body)])) ∨
  (∃ url body iteration full_id complete_config answer rest,
     contains "error" body = false ∧
     service_marathon_config !! "iteration" = Some iteration ∧
     compose_job_id env service_name instance_name iteration = Ok full_id ∧
     cfg_id complete_config = full_id ∧
     x.2 = EvCurlPerform url (Ok body)
           :: EvGetApp client full_id answer :: rest ∧
     Forall (λ e, is_deploy_call e = true) rest ∧
     match answer with
     | Ok _ =>
         rest = [] ∧ x.1 = Done (0%Z, "Service was already deployed.")
     | Raise e =>
         if is_KeyError e then
           deploy_service full_id complete_config client
             (get_bounce_method service_marathon_config) env
             (h ++ [EvCurlPerform url (Ok body);
                    EvGetApp client full_id answer])
           = (x.1, rest)
         else rest = [] ∧ x.1 = Raised e
     end).
Proof.
  cbv zeta. rewrite setup_service_run.
  destruct (dict_getitem service_marathon_config "iteration")
    as [iteration|e] eqn:Hiter; [|left; by eauto].
  assert (service_marathon_config !! "iteration" = Some iteration) as Hit.
  { unfold dict_getitem in Hiter.
    by destruct (service_marathon_config !! "iteration"); simplify_eq. }
  destruct (compose_job_id env _ _ _) as [full_id|e] eqn:Hid;
    [|left; by eauto].
  destruct (remove_iteration_from_job_id env _) as [filter_name|e];
    [|left; by eauto].
  destruct (dict_getitem marathon_config "docker_registry")
    as [docker_registry|e]; [|left; by eauto].
  destruct (dict_getitem service_marathon_config "docker_image")
    as [docker_image|e] eqn:Himg; [|left; by eauto].
  assert (service_marathon_config !! "docker_image" = Some docker_image)
    as Him.
  { unfold dict_getitem in Himg.
    by destruct (service_marathon_config !! "docker_image"); simplify_eq. }
  pose proof (get_docker_url_shape env h docker_registry docker_image)
    as Hurl.
  destruct (get_docker_url docker_registry docker_image env h) as [ru tu].
  simpl in Hurl.
  destruct Hurl as [[-> [e ->]]|(url & answer & -> & ->)];
    [left; by eauto|].
  destruct answer as [body|e]; [|right; left; by eauto].
  destruct (contains "error" body) eqn:Hbody.
  { rewrite String.eqb_refl. right; right; left. by eauto 10. }
  change (String.eqb _ EmptyString) with false. cbv iota.
  destruct (dict_getitem marathon_config "docker_options")
    as [docker_options|e]; [|right; right; right; left; by eauto 10].
  match goal with |- context [create_complete_config ?a ?b ?c ?d env ?hh] =>
    destruct (create_complete_config_run env hh a b c d)
      as (x & Hx & Hfields)
  end.
  rewrite Hx. destruct x as [complete_config|e]; simpl;
    [|right; right; right; left; by eauto 10].
  destruct (Hfields complete_config eq_refl) as (_ & _ & _ & Hcid & _).
  right; right; right; right.
  destruct (client_get_app env _ client full_id) as [[]|e] eqn:Hans.
  - exists url, body, iteration, full_id, complete_config, (Ok ()), [].
    by split_and!; [..|constructor|].
  - destruct (is_KeyError e) eqn:Hkey.
    + destruct (deploy_service _ _ _ _ _ _) as [rd td] eqn:Hd.
      exists url, body, iteration, full_id, complete_config, (Raise e), td.
      split_and!; [done..| |].
      { pose proof (deploy_service_calls env
          ((h ++ [EvCurlPerform url (Ok body)]) ++
           [EvGetApp client full_id (Raise e)]) full_id complete_config
          client (get_bounce_method service_marathon_config)) as Hcalls.
        by rewrite Hd in Hcalls. }
      rewrite Hkey. simpl. rewrite <- Hd.
      by rewrite <- (assoc_L (++)).
    + exists url, body, iteration, full_id, complete_config, (Raise e), [].
      split_and!; [done..|constructor|]. by rewrite Hkey.
Qed.

(** X4. When the registry answers with a body that contains "error",
    [setup_service] returns (1, "Docker image not found: <docker_image>")
    and the registry request is the only call it makes: the orchestrator is
    not asked anything. *)
Theorem setup_service_image_not_found env h service_name instance_name
    client marathon_config service_marathon_config r t url body :
  setup_service service_name instance_name client marathon_config
    service_marathon_config env h = (r, t) →
  EvCurlPerform url (Ok body) ∈ t →
  contains "error" body = true →
  ∃ docker_image,
    service_marathon_config !! "docker_image" = Some docker_image ∧
    r = Done (1%Z, "Docker image not found: " +:+ py_str docker_image) ∧
    t = [EvCurlPerform url (Ok body)] ∧
    count is_orchestrator_call t = 0.
Proof.
  intros Hrun Hin Hbody.
  pose proof (setup_service_shape env h service_name instance_name client
                marathon_config service_marathon_config) as Hshape.
  rewrite Hrun in Hshape. simpl in Hshape.
  destruct Hshape as [[-> _]|[(url' & e & [= -> ->])|
    [(url' & body' & img & Hb & Himg & [= -> ->])|
     [(url' & body' & e & Hb & [= -> ->])|
      (url' & body' & it & id & cfg & ans & rest & Hb & _ & _ & _ & -> &
       Hrest & _)]]]].
  - not_in_run Hin.
  - not_in_run Hin.
  - apply list_elem_of_singleton in Hin as [= -> ->]. by eauto.
  - apply list_elem_of_singleton in Hin as [= -> ->]. congruence.
  - apply elem_of_cons in Hin as [[= -> ->]|Hin]; [congruence|].
    apply elem_of_cons in Hin as [Hin|Hin]; [discriminate Hin|].
    rewrite Forall_forall in Hrest. by apply Hrest in Hin.
Qed.

(** X4 where the registry answers that the tag is not found. *)
Lemma setup_service_image_not_found_witness :
  let env := constant_world "." (Ok sample_marathon_config)
               (Ok (Some sample_service_config))
               (Ok "{error: Tag not found}") (Ok ()) (Ok []) (Ok ()) (Ok ())
               (Ok sample_monitoring) (Ok ()) in
  let run :=
    setup_service "checkout" "main" sample_client sample_marathon_config
      sample_service_config env [] in
  run.1 = Done (1%Z, "Docker image not found: checkout:latest") ∧
  count is_orchestrator_call run.2 = 0.
Proof.
  intros env run.
  assert (Hin : EvCurlPerform
            "http://registry.local/v1/repositories/checkout/tags/latest"
            (Ok "{error: Tag not found}") ∈ run.2) by (vm_compute; left).
  destruct (setup_service_image_not_found env [] "checkout" "main"
              sample_client sample_marathon_config sample_service_config
              run.1 run.2 _ _ (surjective_pairing run) Hin eq_refl)
    as (docker_image & Himg & Hr & _ & Hcount).
  injection Himg as <-. split; [exact Hr|exact Hcount].
Defined.

(** X5. When the service configuration has no "iteration" key or no
    "docker_image" key, or the orchestrator configuration has no
    "docker_registry" key, [setup_service] raises before any call is made;
    a missing "iteration" gives the [KeyError] whose text is 'iteration'. *)
Theorem setup_service_missing_key env h service_name instance_name client
    marathon_config service_marathon_config :
  service_marathon_config !! "iteration" = None ∨
  marathon_config !! "docker_registry" = None ∨
  service_marathon_config !! "docker_image" = None →
  ∃ e,
    setup_service service_name instance_name client marathon_config
      service_marathon_config env h = (Raised e, []) ∧
    (service_marathon_config !! "iteration" = None →
     e = KeyError "'iteration'").
Proof.
  intros Hmissing. rewrite setup_service_run. unfold dict_getitem.
  destruct (service_marathon_config !! "iteration") as [iteration|];
    [|by eexists].
  destruct (compose_job_id env _ _ _) as [full_id|e]; [|by eexists].
  destruct (remove_iteration_from_job_id env _) as [filter_name|e];
    [|by eexists].
  destruct (marathon_config !! "docker_registry") as [docker_registry|];
    [|by eexists].
  destruct (service_marathon_config !! "docker_image") as [docker_image|];
    [|by eexists].
  by destruct Hmissing as [?|[?|?]].
Qed.

(** X5 on a service configuration that only names the image. *)
Lemma setup_service_missing_key_witness :
  let service_config : gmap string pyval :=
    {[ "docker_image" := PStr "checkout:latest" ]} in
  service_config !! "iteration" = None ∧
  setup_service "checkout" "main" sample_client sample_marathon_config
    service_config (world "." (Ok ()) [] sample_monitoring) []
  = (Raised (KeyError "'iteration'"), []).
Proof.
  intros service_config.
  assert (Hnone : service_config !! "iteration" = None) by reflexivity.
  split; [exact Hnone|].
  destruct (setup_service_missing_key
              (world "." (Ok ()) [] sample_monitoring) [] "checkout" "main"
              sample_client sample_marathon_config service_config
              (or_introl Hnone)) as (e & Hrun & He).
  rewrite Hrun. by rewrite (He Hnone).
Defined.

(** X6. The lookup of the exact id decides what [setup_service] does next.
    If it raises [KeyError], the function goes on as [deploy_service] on the
    same id, with a descriptor of that id, the same client and the bounce
    method of the configuration: its result is the result of that
    deployment, whose calls follow the lookup. If it raises anything else,
    that error goes to the caller and nothing is deployed. *)
Theorem setup_service_after_lookup env h service_name instance_name client
    marathon_config service_marathon_config r t c id e :
  setup_service service_name instance_name client marathon_config
    service_marathon_config env h = (r, t) →
  EvGetApp c id (Raise e) ∈ t →
  c = client ∧
  if is_KeyError e then
    ∃ url body complete_config rest,
      cfg_id complete_config = id ∧
      t = EvCurlPerform url (Ok body) :: EvGetApp client id (Raise e)
          :: rest ∧
      deploy_service id complete_config client
        (get_bounce_method service_marathon_config) env
        (h ++ [EvCurlPerform url (Ok body); EvGetApp client id (Raise e)])
      = (r, rest)
  else r = Raised e ∧ count is_deploy_call t = 0.
Proof.
  intros Hrun Hin.
  pose proof (setup_service_shape env h service_name instance_name client
                marathon_config service_marathon_config) as Hshape.
  rewrite Hrun in Hshape. simpl in Hshape.
  destruct Hshape as [[-> _]|[(url' & e' & [= -> ->])|
    [(url' & body' & img & Hb & Himg & [= -> ->])|
     [(url' & body' & e' & Hb & [= -> ->])|
      (url' & body' & it & id' & cfg & ans & rest & Hb & _ & _ & Hcid & -> &
       Hrest & Hans)]]]]; try not_in_run Hin.
  apply elem_of_cons in Hin as [Hin|Hin]; [discriminate Hin|].
  apply elem_of_cons in Hin as [[= -> -> <-]|Hin].
  - split; [done|]. destruct (is_KeyError e).
    + by eauto 10.
    + destruct Hans as [-> ->]. done.
  - rewrite Forall_forall in Hrest. by apply Hrest in Hin.
Qed.

(** X6 where the exact id is not found and Marathon lists no app. *)
Lemma setup_service_after_lookup_witness :
  let env := world "." not_found [] sample_monitoring in
  let run :=
    setup_service "checkout" "main" sample_client sample_marathon_config
      sample_service_config env [] in
  EvGetApp sample_client "checkout.main.v1" not_found ∈ run.2 ∧
  run.1 = Done (0%Z, "Service deployed.") ∧
  count is_create_app run.2 = 1.
Proof.
  intros env run.
  assert (Hin : EvGetApp sample_client "checkout.main.v1" not_found ∈ run.2)
    by (vm_compute; right; left).
  destruct (setup_service_after_lookup env [] "checkout" "main" sample_client
              sample_marathon_config sample_service_config run.1 run.2 _ _ _
              (surjective_pairing run) Hin) as [_ Hnext].
  split; [exact Hin|]. split; reflexivity.
Defined.

(** ** The entry point, step by step *)

(** [main] up to the reading of the service configuration. *)
Lemma main_deploy_run env h args service_name instance_name :
  main_deploy args service_name instance_name env h =
  match marathon_tools_get_config env h with
  | Raise e => (Raised e, [EvGetConfig (Raise e)])
  | Ok marathon_config =>
  let got := EvGetConfig (Ok marathon_config) in
  match dict_getitem marathon_config "url" with
  | Raise e => (Raised e, [got])
  | Ok url =>
  match dict_getitem marathon_config "user" with
  | Raise e => (Raised e, [got])
  | Ok user =>
  match dict_getitem marathon_config "pass" with
  | Raise e => (Raised e, [got])
  | Ok passwd =>
  let client := {| client_url := url; client_user := user;
                   client_passwd := passwd |} in
  match new_MarathonClient env (h ++ [got]) url user passwd with
  | Raise e => (Raised e, [got; EvMarathonClient url user passwd (Raise e)])
  | Ok _ =>
  let made := EvMarathonClient url user passwd (Ok ()) in
  match dict_getitem marathon_config "cluster" with
  | Raise e => (Raised e, [got; made])
  | Ok cluster =>
  match marathon_tools_read_service_config env (h ++ [got; made])
          service_name instance_name cluster (soa_dir args) with
  | Raise e =>
      (Raised e,
       [got; made;
        EvReadServiceConfig service_name instance_name cluster (soa_dir args)
          (Raise e)])
  | Ok service_instance_config =>
      let read := EvReadServiceConfig service_name instance_name cluster
                    (soa_dir args) (Ok service_instance_config) in
      let '(r, t) :=
        main_report args service_name instance_name client marathon_config
          service_instance_config env (h ++ [got; made; read]) in
      (r, got :: made :: read :: t)
  end end end end end end
  end.
Proof.
  unfold main_deploy, get_main_marathon_config, get_marathon_client.
  rewrite run_call_bind.
  destruct (marathon_tools_get_config env h) as [marathon_config|e];
    [|done].
  cbv zeta. run_step.
  destruct (dict_getitem marathon_config "url") as [url|e]; [|done].
  run_step.
  destruct (dict_getitem marathon_config "user") as [user|e]; [|done].
  run_step.
  destruct (dict_getitem marathon_config "pass") as [passwd|e]; [|done].
  rewrite run_bind, run_call_bind.
  destruct (new_MarathonClient env _ url user passwd) as [[]|e]; [|done].
  simpl. run_step.
  destruct (dict_getitem marathon_config "cluster") as [cluster|e] eqn:Hcl;
    [|done].
  rewrite run_call_bind. rewrite <- !(assoc_L (++)). simpl.
  destruct (marathon_tools_read_service_config env _ _ _ _ _)
    as [service_instance_config|e]; [|done].
  unfold main_report. rewrite Hcl. rewrite <- !(assoc_L (++)). simpl.
  match goal with |- _ = (let '(_, _) := ?run in _) =>
    destruct run as [r t]
  end.
  done.
Qed.

(** The end of [main]: the deployment, the report, the exit. *)
Lemma main_report_run env h args service_name instance_name client
    marathon_config service_instance_config :
  main_report args service_name instance_name client marathon_config
    service_instance_config env h =
  if config_truthy service_instance_config then
    let '(r1, t1) :=
      setup_service service_name instance_name client marathon_config
        (default ∅ service_instance_config) env h in
    match r1 with
    | Done (status, output) =>
        let '(r2, t2) :=
          send_sensu_event service_name instance_name (soa_dir args)
            (if (status =? 0)%Z then Status_OK else Status_CRITICAL) output
            env (h ++ t1) in
        match r2 with
        | Done _ => (Exited status, t1 ++ t2)
        | Raised e =>
            if is_Key_Type_ValueError e then
              let '(r3, t3) :=
                send_sensu_event service_name instance_name (soa_dir args)
                  Status_CRITICAL (exn_str e) env (h ++ t1 ++ t2) in
              (match r3 with
               | Done _ => Exited 1
               | Raised e' => Raised e'
               | Exited code => Exited code
               end, t1 ++ t2 ++ t3)
            else (Raised e, t1 ++ t2)
        | Exited code => (Exited code, t1 ++ t2)
        end
    | Raised e =>
        if is_Key_Type_ValueError e then
          let '(r3, t3) :=
            send_sensu_event service_name instance_name (soa_dir args)
              Status_CRITICAL (exn_str e) env (h ++ t1) in
          (match r3 with
           | Done _ => Exited 1
           | Raised e' => Raised e'
           | Exited code => Exited code
           end, t1 ++ t3)
        else (Raised e, t1)
    | Exited code => (Exited code, t1)
    end
  else
    match dict_getitem marathon_config "cluster" with
    | Raise e => (Raised e, [])
    | Ok cluster =>
        let '(r3, t3) :=
          send_sensu_event service_name instance_name (soa_dir args)
            Status_CRITICAL
            ("Could not read marathon configuration file for "
             +:+ service_instance args +:+ " in cluster " +:+ py_str cluster)
            env h in
        (match r3 with
         | Done _ => Exited 1
         | Raised e' => Raised e'
         | Exited code => Exited code
         end, t3)
    end.
Proof.
  unfold main_report. destruct (config_truthy service_instance_config).
  - unfold try_except. rewrite run_bind.
    destruct (setup_service _ _ _ _ _ _ _) as [[[status output]|e|code] t1];
      [| |done].
    + rewrite run_bind.
      destruct (send_sensu_event _ _ _ _ _ _ _) as [[[]|e|code] t2].
      * simpl. by rewrite app_nil_r.
      * destruct (is_Key_Type_ValueError e); [|done].
        rewrite run_bind.
        destruct (send_sensu_event _ _ _ _ _ _ _) as [[[]|e'|code] t3];
          simpl; by rewrite ?app_nil_r, <- ?(assoc_L (++)).
      * done.
    + destruct (is_Key_Type_ValueError e); [|done].
      rewrite run_bind.
      destruct (send_sensu_event _ _ _ _ _ _ _) as [[[]|e'|code] t3];
        simpl; by rewrite ?app_nil_r.
  - run_step. destruct (dict_getitem marathon_config "cluster")
      as [cluster|e]; [|done].
    rewrite run_bind.
    destruct (send_sensu_event _ _ _ _ _ _ _) as [[[]|e'|code] t3];
      simpl; by rewrite ?app_nil_r.
Qed.

(** ** What the parts of a run call *)



Lemma send_sensu_event_calls env h name instance soa_dir status output :
  let x := send_sensu_event name instance soa_dir status output env h in
  alert_attempts x.2 = 1 ∧
  Forall (λ st, st = status) (send_event_statuses x.2) ∧
  Forall (λ out, out = output) (send_event_outputs x.2) ∧
  Forall (λ e, is_read_monitoring e = true ∨ is_send_event e = true) x.2 ∧
  (∀ code, x.1 ≠ Exited code).
Proof.
  cbv zeta. rewrite send_sensu_event_run. cbv zeta.
  destruct (read_monitoring env h _) as [conf|e]; simpl.
  - destruct (py_truthy (dict_get conf "team")); simpl.
    + destruct (pysensu_yelp_send_event _ _ _ _ _ _ _ _) as [[]|e]; simpl.
      * split_and!; [done|by repeat constructor..|done].
      * split_and!; [done|by repeat constructor..|].
        by destruct (is_TypeError e).
    + split_and!; [done|by repeat constructor..|done].
  - split_and!; [done|by repeat constructor..|done].
Qed.


(** What a list of reporting calls counts for. *)
Lemma only_alert_calls t :
  Forall (λ e, is_read_monitoring e = true ∨ is_send_event e = true) t →
  count is_curl_perform t = 0 ∧ count is_orchestrator_call t = 0 ∧
  count is_read_service_config t = 0 ∧
  Forall (λ e, orchestrator_said_yes e = false) t.
Proof.
  induction 1 as [|e t He _ (IH1 & IH2 & IH3 & IH4)];
    [by split_and!; [..|constructor]|].
  simpl. rewrite IH1, IH2, IH3.
  destruct e; destruct He as [He|He]; try discriminate He;
    by split_and!; [..|constructor].
Qed.

Lemma setup_service_no_config env h service_name instance_name client
    marathon_config service_marathon_config :
  quiet (λ e, is_config_call e = false)
    (setup_service service_name instance_name client marathon_config
       service_marathon_config env h).
Proof.
  unfold setup_service, get_docker_url, create_complete_config, get_ports,
    get_mem, get_cpus, get_instances, deploy_service.
  quiet_steps.
Qed.

Lemma alert_calls_no_config t :
  Forall (λ e, is_read_monitoring e = true ∨ is_send_event e = true) t →
  Forall (λ e, is_config_call e = false) t.
Proof.
  intros Hall. eapply Forall_impl; [exact Hall|].
  intros e [He|He]; by destruct e.
Qed.

(** The end of [main] fetches no configuration any more. *)
Lemma main_report_no_config env h args service_name instance_name client
    marathon_config service_instance_config :
  Forall (λ e, is_config_call e = false)
    (main_report args service_name instance_name client marathon_config
       service_instance_config env h).2.
Proof.
  rewrite main_report_run.
  destruct (config_truthy service_instance_config).
  - pose proof (setup_service_no_config env h service_name instance_name
                  client marathon_config (default ∅ service_instance_config))
      as [_ H1].
    destruct (setup_service _ _ _ _ _ _ _) as [[[status output]|e|code] t1];
      simpl in *; [| |done].
    + pose proof (send_sensu_event_calls env (h ++ t1) service_name
                    instance_name (soa_dir args)
                    (if (status =? 0)%Z then Status_OK else Status_CRITICAL)
                    output) as (_ & _ & _ & H2 & _).
      apply alert_calls_no_config in H2.
      destruct (send_sensu_event _ _ _ _ _ _ _) as [[[]|e|code] t2];
        simpl in *; [by apply Forall_app| |by apply Forall_app].
      destruct (is_Key_Type_ValueError e); [|by apply Forall_app].
      pose proof (send_sensu_event_calls env (h ++ t1 ++ t2) service_name
                    instance_name (soa_dir args) Status_CRITICAL (exn_str e))
        as (_ & _ & _ & H3 & _).
      apply alert_calls_no_config in H3.
      destruct (send_sensu_event _ _ _ _ _ _ _) as [r3 t3]. simpl in *.
      by rewrite !Forall_app.
    + destruct (is_Key_Type_ValueError e); [|done].
      pose proof (send_sensu_event_calls env (h ++ t1) service_name
                    instance_name (soa_dir args) Status_CRITICAL (exn_str e))
        as (_ & _ & _ & H3 & _).
      apply alert_calls_no_config in H3.
      destruct (send_sensu_event _ _ _ _ _ _ _) as [r3 t3]. simpl in *.
      by rewrite !Forall_app.
  - destruct (dict_getitem marathon_config "cluster") as [cluster|e];
      [|constructor].
    pose proof (send_sensu_event_calls env h service_name instance_name
                  (soa_dir args) Status_CRITICAL
                  ("Could not read marathon configuration file for "
                   +:+ service_instance args +:+ " in cluster "
                   +:+ py_str cluster)) as (_ & _ & _ & H3 & _).
    apply alert_calls_no_config in H3.
    by destruct (send_sensu_event _ _ _ _ _ _ _) as [r3 t3].
Qed.






(** ** The paths of [main] that deploy nothing *)

(** [main] step by step, up to the end of the run: one goal for each place
    it can stop at before the service configuration is there, and one for
    the rest. *)
Ltac main_steps env h :=
  rewrite main_run;
  destruct (py_split _ _) as [[|service_name [|instance_name rest]]|e];
    [| |rewrite main_deploy_run;
        destruct (marathon_tools_get_config env h) as [marathon_config|e];
        [cbv zeta;
         destruct (dict_getitem marathon_config "url") as [url|e] eqn:Hurl;
         [destruct (dict_getitem marathon_config "user")
            as [user|e] eqn:Huser;
          [destruct (dict_getitem marathon_config "pass")
             as [passwd|e] eqn:Hpass;
           [destruct (new_MarathonClient env _ url user passwd) as [[]|e];
            [destruct (dict_getitem marathon_config "cluster")
               as [cluster|e] eqn:Hcluster;
             [destruct (marathon_tools_read_service_config env _ _ _ _ _)
                as [service_instance_config|e]|]|]|]|]|]|]
    |destruct (is_IndexError e)].

(** X9. When the service configuration that was read is empty or absent,
    [main] asks neither the registry nor the orchestrator anything: it
    attempts one report, every event it sends is CRITICAL with the text
    "Could not read marathon configuration file for <argument> in cluster
    <cluster>", and the process ends with status 1. *)
Theorem main_absent_config env h args r t service instance where_ dir
    config :
  main args env h = (r, t) →
  EvReadServiceConfig service instance where_ dir (Ok config) ∈ t →
  config_truthy config = false →
  count is_curl_perform t = 0 ∧
  count is_orchestrator_call t = 0 ∧
  alert_attempts t = 1 ∧
  Forall (λ st, st = Status_CRITICAL) (send_event_statuses t) ∧
  Forall (λ out, out = "Could not read marathon configuration file for "
                       +:+ service_instance args +:+ " in cluster "
                       +:+ py_str where_) (send_event_outputs t) ∧
  exit_status r = 1%Z.
Proof.
  main_steps env h; try (intros [= <- <-] Hin; not_in_run Hin).
  match goal with |- context [main_report ?a ?b ?c ?d ?e ?f env ?hh] =>
    pose proof (main_report_no_config env hh a b c d e f) as Hnone;
    pose proof (main_report_run env hh a b c d e f) as Hrun;
    destruct (main_report a b c d e f env hh) as [r' t']
  end.
  simpl in Hnone. intros [= <- <-] Hin Hfalsy.
  apply elem_of_cons in Hin as [Hin|Hin]; [discriminate Hin|].
  apply elem_of_cons in Hin as [Hin|Hin]; [discriminate Hin|].
  apply elem_of_cons in Hin as [[= -> -> -> -> ->]|Hin].
  - rewrite Hfalsy, Hcluster in Hrun.
    pose proof (send_sensu_event_calls env
                  (h ++ [EvGetConfig (Ok marathon_config);
                         EvMarathonClient url user passwd (Ok ());
                         EvReadServiceConfig service_name instance_name
                           cluster (soa_dir args)
                           (Ok service_instance_config)])
                  service_name instance_name (soa_dir args) Status_CRITICAL
                  ("Could not read marathon configuration file for "
                   +:+ service_instance args +:+ " in cluster "
                   +:+ py_str cluster)) as (Hatt & Hst & Hout & Hall & Hne).
    apply only_alert_calls in Hall as (Hcurl & Horch & _).
    destruct (send_sensu_event _ _ _ _ _ _ _) as [r3 t3].
    injection Hrun as -> ->. simpl in *.
    split_and!; [done..|]. destruct r3 as [[]|e3|c3]; [done|done|].
    by destruct (Hne c3).
  - rewrite Forall_forall in Hnone. by apply Hnone in Hin.
Qed.

(** X9 where the file has no entry for the instance. *)
Lemma main_absent_config_witness :
  let env := constant_world "." (Ok sample_marathon_config) (Ok None)
               (Ok "{}") (Ok ()) (Ok []) (Ok ()) (Ok ())
               (Ok sample_monitoring) (Ok ()) in
  let run := main sample_args env [] in
  count is_curl_perform run.2 = 0 ∧
  count is_orchestrator_call run.2 = 0 ∧
  send_event_outputs run.2 =
    ["Could not read marathon configuration file for checkout.main in "
     +:+ "cluster devc"] ∧
  run.1 = Exited 1.
Proof.
  intros env run.
  assert (Hin : EvReadServiceConfig "checkout" "main" (PStr "devc")
                  "/nail/soa" (Ok None) ∈ run.2)
    by (vm_compute; right; right; left).
  destruct (main_absent_config env [] sample_args run.1 run.2 _ _ _ _ _
              (surjective_pairing run) Hin eq_refl)
    as (Hcurl & Horch & _).
  split; [exact Hcurl|]. split; [exact Horch|]. split; reflexivity.
Defined.

Lemma dict_getitem_Ok d k v : dict_getitem d k = Ok v → d !! k = Some v.
Proof. unfold dict_getitem. by destruct (d !! k); intros [= ->]. Qed.

(** X10. The orchestrator configuration is read without any handler around
    it: when the one [main] got lacks "url", "user", "pass" or "cluster",
    the run ends in an exception that nobody catches. Nothing is reported,
    the service configuration is not read, and neither the registry nor the
    orchestrator is asked anything. Without "url", the exception is the
    [KeyError] of that key and the reading of the configuration is the only
    call of the run. *)
Theorem main_missing_marathon_key env h args r t config key :
  main args env h = (r, t) →
  EvGetConfig (Ok config) ∈ t →
  key ∈ ["url"; "user"; "pass"; "cluster"] →
  config !! key = None →
  (∃ e, r = Raised e) ∧
  alert_attempts t = 0 ∧
  count is_read_service_config t = 0 ∧
  count is_curl_perform t = 0 ∧
  count is_orchestrator_call t = 0 ∧
  (config !! "url" = None →
   r = Raised (KeyError "'url'") ∧ t = [EvGetConfig (Ok config)]).
Proof.
  main_steps env h; try (intros [= <- <-] Hin; not_in_run Hin);
    try solve
      [intros [= <- <-] Hin _ _;
       (apply elem_of_cons in Hin as [Hin|Hin]; [|not_in_run Hin]);
       simplify_eq; (split_and!; [by eauto|done..|]); intros Hno;
       unfold dict_getitem in Hurl; rewrite Hno in Hurl; by simplify_eq].
  - match goal with |- context [main_report ?a ?b ?c ?d ?e ?f env ?hh] =>
      pose proof (main_report_no_config env hh a b c d e f) as Hnone;
      destruct (main_report a b c d e f env hh) as [r' t']
    end.
    simpl in Hnone. intros [= <- <-] Hin Hkey Hmissing. exfalso.
    assert (config = marathon_config) as ->.
    { apply elem_of_cons in Hin as [[= ->]|Hin]; [done|].
      apply elem_of_cons in Hin as [Hin|Hin]; [discriminate Hin|].
      apply elem_of_cons in Hin as [Hin|Hin]; [discriminate Hin|].
      rewrite Forall_forall in Hnone. by apply Hnone in Hin. }
    apply dict_getitem_Ok in Hurl, Huser, Hpass, Hcluster.
    repeat (apply elem_of_cons in Hkey as [->|Hkey]; [congruence|]).
    by apply elem_of_nil in Hkey.
  - intros [= <- <-] Hin Hkey Hmissing. exfalso.
    apply elem_of_cons in Hin as [[= ->]|Hin]; [|not_in_run Hin].
    apply dict_getitem_Ok in Hurl, Huser, Hpass, Hcluster.
    repeat (apply elem_of_cons in Hkey as [->|Hkey]; [congruence|]).
    by apply elem_of_nil in Hkey.
Qed.

(** X10 on a configuration from which the address of the orchestrator is
    missing. *)
Lemma main_missing_marathon_key_witness :
  let config := delete "url" sample_marathon_config in
  let env := constant_world "." (Ok config) (Ok (Some sample_service_config))
               (Ok "{}") (Ok ()) (Ok []) (Ok ()) (Ok ())
               (Ok sample_monitoring) (Ok ()) in
  let run := main sample_args env [] in
  run.1 = Raised (KeyError "'url'") ∧ run.2 = [EvGetConfig (Ok config)] ∧
  alert_attempts run.2 = 0.
Proof.
  intros config env run.
  assert (Hin : EvGetConfig (Ok config) ∈ run.2) by (vm_compute; left).
  assert (Hkey : "url" ∈ ["url"; "user"; "pass"; "cluster"]) by left.
  assert (Hno : config !! "url" = None) by (vm_compute; reflexivity).
  destruct (main_missing_marathon_key env [] sample_args run.1 run.2 config
              "url" (surjective_pairing run) Hin Hkey Hno)
    as (_ & Hatt & _ & _ & _ & Hurl).
  destruct (Hurl Hno) as [Hr Ht]. by split_and!.
Defined.

Lemma setup_service_no_iteration env h service_name instance_name client
    marathon_config service_marathon_config :
  service_marathon_config !! "iteration" = None →
  setup_service service_name instance_name client marathon_config
    service_marathon_config env h = (Raised (KeyError "'iteration'"), []).
Proof.
  intros Hno. rewrite setup_service_run. unfold dict_getitem.
  by rewrite Hno.
Qed.

(** X11. When the service configuration that was read is not empty but has
    no "iteration" key, the handler of [main] takes the [KeyError] of
    [setup_service] for the result of the deployment: neither the registry
    nor the orchestrator is asked anything, one report is attempted, every
    event sent is CRITICAL with the text of the error, 'iteration', and the
    process ends with status 1. *)
Theorem main_missing_iteration env h args r t service instance where_ dir
    config :
  main args env h = (r, t) →
  EvReadServiceConfig service instance where_ dir (Ok (Some config)) ∈ t →
  config ≠ ∅ →
  config !! "iteration" = None →
  count is_curl_perform t = 0 ∧
  count is_orchestrator_call t = 0 ∧
  alert_attempts t = 1 ∧
  Forall (λ st, st = Status_CRITICAL) (send_event_statuses t) ∧
  Forall (λ out, out = "'iteration'") (send_event_outputs t) ∧
  exit_status r = 1%Z.
Proof.
  main_steps env h; try (intros [= <- <-] Hin; not_in_run Hin).
  match goal with |- context [main_report ?a ?b ?c ?d ?e ?f env ?hh] =>
    pose proof (main_report_no_config env hh a b c d e f) as Hnone;
    pose proof (main_report_run env hh a b c d e f) as Hrun;
    destruct (main_report a b c d e f env hh) as [r' t']
  end.
  simpl in Hnone. intros [= <- <-] Hin Hfull Hno.
  apply elem_of_cons in Hin as [Hin|Hin]; [discriminate Hin|].
  apply elem_of_cons in Hin as [Hin|Hin]; [discriminate Hin|].
  apply elem_of_cons in Hin as [[= -> -> -> -> <-]|Hin].
  - simpl in Hrun. rewrite bool_decide_eq_false_2 in Hrun by done.
    simpl in Hrun. rewrite setup_service_no_iteration in Hrun by done.
    simpl in Hrun.
    pose proof (send_sensu_event_calls env
                  ((h ++ [EvGetConfig (Ok marathon_config);
                          EvMarathonClient url user passwd (Ok ());
                          EvReadServiceConfig service_name instance_name
                            cluster (soa_dir args) (Ok (Some config))]) ++ [])
                  service_name instance_name (soa_dir args) Status_CRITICAL
                  "'iteration'") as (Hatt & Hst & Hout & Hall & Hne).
    apply only_alert_calls in Hall as (Hcurl & Horch & _).
    destruct (send_sensu_event _ _ _ _ _ _ _) as [r3 t3].
    injection Hrun as -> ->. simpl in *.
    split_and!; [done..|]. destruct r3 as [[]|e3|c3]; [done|done|].
    by destruct (Hne c3).
  - rewrite Forall_forall in Hnone. by apply Hnone in Hin.
Qed.

(** X11 on a service configuration that only names the image. *)
Lemma main_missing_iteration_witness :
  let config : gmap string pyval :=
    {[ "docker_image" := PStr "checkout:latest" ]} in
  let env := constant_world "." (Ok sample_marathon_config) (Ok (Some config))
               (Ok "{}") (Ok ()) (Ok []) (Ok ()) (Ok ())
               (Ok sample_monitoring) (Ok ()) in
  let run := main sample_args env [] in
  count is_orchestrator_call run.2 = 0 ∧
  send_event_statuses run.2 = [Status_CRITICAL] ∧
  send_event_outputs run.2 = ["'iteration'"] ∧
  run.1 = Exited 1.
Proof.
  intros config env run.
  assert (Hin : EvReadServiceConfig "checkout" "main" (PStr "devc")
                  "/nail/soa" (Ok (Some config)) ∈ run.2)
    by (vm_compute; right; right; left).
  assert (Hfull : config ≠ ∅).
  { intros Hempty. by apply (f_equal (λ m, m !! "docker_image")) in Hempty. }
  destruct (main_missing_iteration env [] sample_args run.1 run.2 _ _ _ _ _
              (surjective_pairing run) Hin Hfull eq_refl)
    as (_ & Horch & _).
  split; [exact Horch|]. split_and!; reflexivity.
Defined.

(** ** The order of the calls *)

Lemma deploy_calls_count t :
  Forall (λ e, is_deploy_call e = true) t →
  Forall (λ e, is_orchestrator_call e = true) t ∧ count is_get_app t = 0.
Proof.
  induction 1 as [|e t He _ [IH1 IH2]]; [by split|].
  split.
  - constructor; [|done]. unfold is_orchestrator_call. rewrite He.
    apply orb_true_r.
  - simpl. rewrite IH2. by destruct e.
Qed.

Lemma setup_service_order env h service_name instance_name client
    marathon_config service_marathon_config :
  registry_then_orchestrator
    (setup_service service_name instance_name client marathon_config
       service_marathon_config env h).2.
Proof.
  pose proof (setup_service_shape env h service_name instance_name client
                marathon_config service_marathon_config) as Hshape.
  destruct (setup_service _ _ _ _ _ _ _) as [r t]. simpl in *.
  destruct Hshape as [[-> _]|[(url & e & [= -> ->])|
    [(url & body & img & Hb & Himg & [= -> ->])|
     [(url & body & e & Hb & [= -> ->])|
      (url & body & it & id & cfg & ans & rest & Hb & _ & _ & _ & -> &
       Hrest & Hans)]]]].
  - by left.
  - right. exists url, (Raise e), [].
    split_and!; [done|constructor|simpl; lia..].
  - right. exists url, (Ok body), [].
    split_and!; [done|constructor|simpl; lia..].
  - right. exists url, (Ok body), [].
    split_and!; [done|constructor|simpl; lia..].
  - right. exists url, (Ok body), (EvGetApp client id ans :: rest).
    apply deploy_calls_count in Hrest as Hcount. destruct Hcount as [Ho Hg].
    split_and!; [done|by constructor|simpl; lia|].
    simpl. destruct ans as [[]|e].
    + destruct Hans as [-> _]. simpl. lia.
    + destruct (is_KeyError e).
      * pose proof (deploy_service_shape env
                      (h ++ [EvCurlPerform url (Ok body);
                             EvGetApp client id (Raise e)])
                      id cfg client
                      (get_bounce_method service_marathon_config))
          as (_ & Hchange & _).
        rewrite Hans in Hchange. exact Hchange.
      * destruct Hans as [-> _]. simpl. lia.
Qed.

Lemma main_report_order env h args service_name instance_name client
    marathon_config service_instance_config :
  ∃ deployment reports,
    (main_report args service_name instance_name client marathon_config
       service_instance_config env h).2 = deployment ++ reports ∧
    registry_then_orchestrator deployment ∧
    Forall is_alert_call reports.
Proof.
  rewrite main_report_run.
  destruct (config_truthy service_instance_config).
  - pose proof (setup_service_order env h service_name instance_name client
                  marathon_config (default ∅ service_instance_config))
      as Horder.
    destruct (setup_service _ _ _ _ _ _ _) as [[[status output]|e|code] t1];
      simpl in *.
    + pose proof (send_sensu_event_calls env (h ++ t1) service_name
                    instance_name (soa_dir args)
                    (if (status =? 0)%Z then Status_OK else Status_CRITICAL)
                    output) as (_ & _ & _ & H2 & _).
      destruct (send_sensu_event _ _ _ _ _ _ _) as [[[]|e|code] t2];
        simpl in *; [by exists t1, t2| |by exists t1, t2].
      destruct (is_Key_Type_ValueError e); [|by exists t1, t2].
      pose proof (send_sensu_event_calls env (h ++ t1 ++ t2) service_name
                    instance_name (soa_dir args) Status_CRITICAL (exn_str e))
        as (_ & _ & _ & H3 & _).
      destruct (send_sensu_event _ _ _ _ _ _ _) as [r3 t3]. simpl in *.
      exists t1, (t2 ++ t3). split_and!; [done|done|by apply Forall_app].
    + destruct (is_Key_Type_ValueError e).
      * pose proof (send_sensu_event_calls env (h ++ t1) service_name
                      instance_name (soa_dir args) Status_CRITICAL
                      (exn_str e)) as (_ & _ & _ & H3 & _).
        destruct (send_sensu_event _ _ _ _ _ _ _) as [r3 t3]. simpl in *.
        by exists t1, t3.
      * exists t1, []. by rewrite app_nil_r; split_and!; [..|constructor].
    + exists t1, []. by rewrite app_nil_r; split_and!; [..|constructor].
  - destruct (dict_getitem marathon_config "cluster") as [cluster|e].
    + pose proof (send_sensu_event_calls env h service_name instance_name
                    (soa_dir args) Status_CRITICAL
                    ("Could not read marathon configuration file for "
                     +:+ service_instance args +:+ " in cluster "
                     +:+ py_str cluster)) as (_ & _ & _ & H3 & _).
      destruct (send_sensu_event _ _ _ _ _ _ _) as [r3 t3]. simpl in *.
      exists [], t3. by split_and!; [|left|].
    + exists [], []. by split_and!; [|left|constructor].
Qed.

(** X12. The calls of a run of [main] come in three parts, in this order:
    at most three calls that fetch the configurations and build the client;
    then the deployment, which is nothing or one request to the registry
    followed by orchestrator calls only, with one lookup and one change at
    most; then the reporting. So nothing is deployed after a report, and
    the registry is asked before the orchestrator is. *)
Theorem main_call_order env h args :
  ∃ configs deployment reports,
    (main args env h).2 = configs ++ deployment ++ reports ∧
    Forall (λ e, is_config_call e = true) configs ∧
    length configs ≤ 3 ∧
    registry_then_orchestrator deployment ∧
    Forall is_alert_call reports.
Proof.
  assert (Hstop : ∀ configs : list event,
            Forall (λ e, is_config_call e = true) configs →
            length configs ≤ 3 →
            ∃ configs' deployment reports,
              configs = configs' ++ deployment ++ reports ∧
              Forall (λ e, is_config_call e = true) configs' ∧
              length configs' ≤ 3 ∧
              registry_then_orchestrator deployment ∧
              Forall is_alert_call reports).
  { intros configs Hall Hlen. exists configs, [], [].
    rewrite app_nil_r. by split_and!; [..|left|constructor]. }
  main_steps env h;
    try (apply Hstop; [by repeat constructor|simpl; lia]).
  match goal with |- context [main_report ?a ?b ?c ?d ?e ?f env ?hh] =>
    pose proof (main_report_order env hh a b c d e f)
      as (deployment & reports & Ht & Hdep & Hrep);
    destruct (main_report a b c d e f env hh) as [r' t']
  end.
  simpl in *. subst t'.
  exists [EvGetConfig (Ok marathon_config);
          EvMarathonClient url user passwd (Ok ());
          EvReadServiceConfig service_name instance_name cluster
            (soa_dir args) (Ok service_instance_config)],
    deployment, reports.
  split_and!; [done|by repeat constructor|simpl; lia|done|done].
Qed.

(** ** The client of a run *)

Lemma setup_service_client env h service_name instance_name client
    marathon_config service_marathon_config :
  quiet (uses_client client)
    (setup_service service_name instance_name client marathon_config
       service_marathon_config env h).
Proof.
  unfold setup_service, get_docker_url, create_complete_config, get_ports,
    get_mem, get_cpus, get_instances, deploy_service.
  quiet_steps.
Qed.

Lemma alert_calls_client client t :
  Forall is_alert_call t → Forall (uses_client client) t.
Proof.
  intros Hall. eapply Forall_impl; [exact Hall|].
  intros e [He|He]; by destruct e.
Qed.

Lemma main_report_client env h args service_name instance_name client
    marathon_config service_instance_config :
  Forall (uses_client client)
    (main_report args service_name instance_name client marathon_config
       service_instance_config env h).2.
Proof.
  pose proof (main_report_order env h args service_name instance_name client
                marathon_config service_instance_config)
    as (deployment & reports & Ht & _ & Hrep).
  apply (alert_calls_client client) in Hrep.
  rewrite main_report_run in Ht |- *.
  destruct (config_truthy service_instance_config).
  - pose proof (setup_service_client env h service_name instance_name
                  client marathon_config (default ∅ service_instance_config))
      as [_ H1].
    destruct (setup_service _ _ _ _ _ _ _) as [[[status output]|e|code] t1];
      simpl in *; [| |done].
    + pose proof (send_sensu_event_calls env (h ++ t1) service_name
                    instance_name (soa_dir args)
                    (if (status =? 0)%Z then Status_OK else Status_CRITICAL)
                    output) as (_ & _ & _ & H2 & _).
      apply (alert_calls_client client) in H2.
      destruct (send_sensu_event _ _ _ _ _ _ _) as [[[]|e|code] t2];
        simpl in *; [by apply Forall_app| |by apply Forall_app].
      destruct (is_Key_Type_ValueError e); [|by apply Forall_app].
      pose proof (send_sensu_event_calls env (h ++ t1 ++ t2) service_name
                    instance_name (soa_dir args) Status_CRITICAL (exn_str e))
        as (_ & _ & _ & H3 & _).
      apply (alert_calls_client client) in H3.
      destruct (send_sensu_event _ _ _ _ _ _ _) as [r3 t3]. simpl in *.
      by rewrite !Forall_app.
    + destruct (is_Key_Type_ValueError e); [|done].
      pose proof (send_sensu_event_calls env (h ++ t1) service_name
                    instance_name (soa_dir args) Status_CRITICAL (exn_str e))
        as (_ & _ & _ & H3 & _).
      apply (alert_calls_client client) in H3.
      destruct (send_sensu_event _ _ _ _ _ _ _) as [r3 t3]. simpl in *.
      by rewrite !Forall_app.
  - destruct (dict_getitem marathon_config "cluster") as [cluster|e];
      [|constructor].
    pose proof (send_sensu_event_calls env h service_name instance_name
                  (soa_dir args) Status_CRITICAL
                  ("Could not read marathon configuration file for "
                   +:+ service_instance args +:+ " in cluster "
                   +:+ py_str cluster)) as (_ & _ & _ & H3 & _).
    apply (alert_calls_client client) in H3.
    by destruct (send_sensu_event _ _ _ _ _ _ _) as [r3 t3].
Qed.

(** X13. A run of [main] that builds a client builds it from the "url",
    "user" and "pass" entries of the orchestrator configuration it read, and
    every orchestrator call of the run (lookup, listing, create-app, bounce)
    goes through that client. *)
Theorem main_one_client env h args r t address login secret answer :
  main args env h = (r, t) →
  EvMarathonClient address login secret answer ∈ t →
  Forall (uses_client {| client_url := address; client_user := login;
                         client_passwd := secret |}) t ∧
  ∃ config,
    EvGetConfig (Ok config) ∈ t ∧ config !! "url" = Some address ∧
    config !! "user" = Some login ∧ config !! "pass" = Some secret.
Proof.
  main_steps env h; try (intros [= <- <-] Hin; not_in_run Hin).
  - match goal with |- context [main_report ?a ?b ?c ?d ?e ?f env ?hh] =>
      pose proof (main_report_no_config env hh a b c d e f) as Hnone;
      pose proof (main_report_client env hh a b c d e f) as Hclient;
      destruct (main_report a b c d e f env hh) as [r' t']
    end.
    simpl in *. intros [= <- <-] Hin.
    apply dict_getitem_Ok in Hurl, Huser, Hpass.
    apply elem_of_cons in Hin as [Hin|Hin]; [discriminate Hin|].
    apply elem_of_cons in Hin as [[= -> -> -> ->]|Hin].
    + split; [by repeat constructor|].
      exists marathon_config. by split_and!; [left|..].
    + apply elem_of_cons in Hin as [Hin|Hin]; [discriminate Hin|].
      rewrite Forall_forall in Hnone. by apply Hnone in Hin.
  - intros [= <- <-] Hin. apply dict_getitem_Ok in Hurl, Huser, Hpass.
    apply elem_of_cons in Hin as [Hin|Hin]; [discriminate Hin|].
    apply elem_of_cons in Hin as [[= -> -> -> ->]|Hin]; [|not_in_run Hin].
    split; [by repeat constructor|].
    exists marathon_config. by split_and!; [left|..].
  - intros [= <- <-] Hin. apply dict_getitem_Ok in Hurl, Huser, Hpass.
    apply elem_of_cons in Hin as [Hin|Hin]; [discriminate Hin|].
    apply elem_of_cons in Hin as [[= -> -> -> ->]|Hin]; [|not_in_run Hin].
    split; [by repeat constructor|].
    exists marathon_config. by split_and!; [left|..].
  - intros [= <- <-] Hin. apply dict_getitem_Ok in Hurl, Huser, Hpass.
    apply elem_of_cons in Hin as [Hin|Hin]; [discriminate Hin|].
    apply elem_of_cons in Hin as [[= -> -> -> ->]|Hin]; [|not_in_run Hin].
    split; [by repeat constructor|].
    exists marathon_config. by split_and!; [left|..].
Qed.

(** X13 on a run that creates the app. *)
Lemma main_one_client_witness :
  let run :=
    main sample_args (world "." not_found [] sample_monitoring) [] in
  Forall (uses_client sample_client) run.2 ∧ count is_create_app run.2 = 1.
Proof.
  intros run.
  assert (Hin : EvMarathonClient (PStr "http://marathon:8080") (PStr "admin")
                  (PStr "secret") (Ok ()) ∈ run.2)
    by (vm_compute; right; left).
  destruct (main_one_client (world "." not_found [] sample_monitoring) []
              sample_args run.1 run.2 _ _ _ _ (surjective_pairing run) Hin)
    as [Hall _].
  split; [exact Hall|reflexivity].
Defined.

(** ** The request to the registry *)

(** Splitting at a one-character separator: the text before its first
    occurrence is the first part. *)
Lemma prefix_char c x s :
  String.prefix (String c EmptyString) (String x s)
  = if ascii_dec c x then true else false.
Proof. simpl. destruct (ascii_dec c x); [by destruct s|done]. Qed.

Lemma split_go_char c a b cur :
  contains (String c EmptyString) a = false →
  split_go (String c EmptyString) (a +:+ String c b) 0 cur
  = (cur +:+ a) :: split_go (String c EmptyString) b 0 EmptyString.
Proof.
  revert cur. induction a as [|x a IH]; intros cur Hno.
  - change (EmptyString +:+ String c b) with (String c b).
    cbn [split_go]. rewrite prefix_char.
    destruct (ascii_dec c c) as [_|Hne]; [|done].
    by rewrite string_app_empty_r.
  - change (String x a +:+ String c b) with (String x (a +:+ String c b)).
    change (contains (String c EmptyString) (String x a)) with
      (String.prefix (String c EmptyString) (String x a)
       || contains (String c EmptyString) a) in Hno.
    apply orb_false_iff in Hno as [Hpre Hno].
    cbn [split_go]. rewrite prefix_char in Hpre |- *. rewrite Hpre.
    by rewrite (IH _ Hno), string_app_assoc.
Qed.

Lemma py_split_char c a b :
  contains (String c EmptyString) a = false →
  contains (String c EmptyString) b = false →
  py_split (a +:+ String c b) (String c EmptyString) = Ok [a; b].
Proof.
  intros Ha Hb. unfold py_split. simpl String.eqb.
  by rewrite (split_go_char _ _ _ _ Ha), (split_go_without _ _ _ Hb).
Qed.

(** X14. For an image given as "<name>:<tag>", with no colon in the name
    and none in the tag, [get_docker_url] makes exactly one call: a request
    for "http://<registry_uri>/v1/repositories/<name>/tags/<tag>"; and it
    raises what the request raises. *)
Theorem get_docker_url_request env h registry_uri image_name image_tag :
  contains ":" image_name = false →
  contains ":" image_tag = false →
  ∃ answer,
    (get_docker_url registry_uri (PStr (image_name +:+ ":" +:+ image_tag))
       env h).2
    = [EvCurlPerform
         ("http://" +:+ py_str registry_uri +:+ "/v1/repositories/"
          +:+ image_name +:+ "/tags/" +:+ image_tag) answer] ∧
    ∀ e, answer = Raise e →
         (get_docker_url registry_uri
            (PStr (image_name +:+ ":" +:+ image_tag)) env h).1 = Raised e.
Proof.
  intros Hname Htag. rewrite get_docker_url_run. unfold str_split.
  change (":" +:+ image_tag) with (String ":"%char image_tag).
  rewrite (py_split_char ":" image_name image_tag Hname Htag). cbv zeta.
  destruct (curl_perform env h _) as [body|e] eqn:Hans.
  - by exists (Ok body).
  - exists (Raise e). split; [done|]. by intros e' [= ->].
Qed.

(** X14 on the image "checkout:latest". *)
Lemma get_docker_url_request_witness :
  ∃ answer,
    (get_docker_url (PStr "registry.local") (PStr "checkout:latest")
       (world "." (Ok ()) [] sample_monitoring) []).2
    = [EvCurlPerform
         "http://registry.local/v1/repositories/checkout/tags/latest"
         answer].
Proof.
  destruct (get_docker_url_request (world "." (Ok ()) [] sample_monitoring)
              [] (PStr "registry.local") "checkout" "latest" eq_refl eq_refl)
    as (answer & Hrun & _).
  exists answer. exact Hrun.
Defined.

Lemma get_docker_url_no_tag env h registry_uri docker_image :
  (∀ s, docker_image = PStr s → contains ":" s = false) →
  get_docker_url registry_uri docker_image env h
  = (Raised match docker_image with
            | PStr _ => IndexError
            | _ => AttributeError
            end, []).
Proof.
  intros Hno. rewrite get_docker_url_run.
  destruct docker_image as [| | |s|]; try done.
  change (str_split (PStr s) ":") with (py_split s ":").
  by rewrite (py_split_without _ _ (Hno s eq_refl)).
Qed.

(** X15. An image that is no text, or a text without a colon, makes
    [get_docker_url] raise before it asks the registry: [AttributeError]
    for the missing [split], [IndexError] for the missing tag. *)
Theorem get_docker_url_untagged env h registry_uri docker_image :
  (∀ s, docker_image = PStr s → contains ":" s = false) →
  get_docker_url registry_uri docker_image env h
  = (Raised match docker_image with
            | PStr _ => IndexError
            | _ => AttributeError
            end, []).
Proof.
  intros Hno. rewrite get_docker_url_run.
  destruct docker_image as [| | |s|]; try done.
  change (str_split (PStr s) ":") with (py_split s ":").
  by rewrite (py_split_without _ _ (Hno s eq_refl)).
Qed.

(** X15 on the image "checkout". *)
Lemma get_docker_url_untagged_witness :
  get_docker_url (PStr "registry.local") (PStr "checkout")
    (world "." (Ok ()) [] sample_monitoring) [] = (Raised IndexError, []).
Proof.
  apply (get_docker_url_untagged (world "." (Ok ()) [] sample_monitoring) []
           (PStr "registry.local") (PStr "checkout")).
  by intros s [= <-].
Defined.

(** X16. An image without a tag stops [main] with an exception that its
    handler does not take: once the service configuration names such an
    image, and the id of the instance can be composed and the registry is
    configured, the run ends in the [IndexError] (or [AttributeError]) of
    [get_docker_url]. Nothing is reported and nothing is asked of the
    registry or the orchestrator: the three calls that fetch the
    configurations and build the client are the whole run. *)
Theorem main_untagged_image env h args r t service instance where_ dir config
    mconfig iteration image registry full_id filter_name :
  main args env h = (r, t) →
  EvGetConfig (Ok mconfig) ∈ t →
  EvReadServiceConfig service instance where_ dir (Ok (Some config)) ∈ t →
  mconfig !! "docker_registry" = Some registry →
  config !! "iteration" = Some iteration →
  config !! "docker_image" = Some image →
  (∀ s, image = PStr s → contains ":" s = false) →
  compose_job_id env service instance iteration = Ok full_id →
  remove_iteration_from_job_id env full_id = Ok filter_name →
  r = Raised match image with
             | PStr _ => IndexError
             | _ => AttributeError
             end ∧
  alert_attempts t = 0 ∧
  length t = 3 ∧
  Forall (λ e, is_config_call e = true) t.
Proof.
  main_steps env h; try (intros [= <- <-] Hin; not_in_run Hin);
    try (intros [= <- <-] _ Hin; not_in_run Hin).
  match goal with |- context [main_report ?a ?b ?c ?d ?e ?f env ?hh] =>
    pose proof (main_report_no_config env hh a b c d e f) as Hnone;
    pose proof (main_report_run env hh a b c d e f) as Hrun;
    destruct (main_report a b c d e f env hh) as [r' t']
  end.
  simpl in Hnone. intros [= <- <-] Hget Hin Hreg Hiter Himg Hno Hid Hfilter.
  assert (mconfig = marathon_config) as ->.
  { apply elem_of_cons in Hget as [[= ->]|Hget]; [done|].
    apply elem_of_cons in Hget as [Hget|Hget]; [discriminate Hget|].
    apply elem_of_cons in Hget as [Hget|Hget]; [discriminate Hget|].
    rewrite Forall_forall in Hnone. by apply Hnone in Hget. }
  apply elem_of_cons in Hin as [Hin|Hin]; [discriminate Hin|].
  apply elem_of_cons in Hin as [Hin|Hin]; [discriminate Hin|].
  apply elem_of_cons in Hin as [[= -> -> -> -> <-]|Hin].
  - assert (config ≠ ∅) as Hfull.
    { intros ->. by rewrite lookup_empty in Himg. }
    simpl in Hrun. rewrite bool_decide_eq_false_2 in Hrun by done.
    simpl in Hrun. rewrite setup_service_run in Hrun.
    unfold dict_getitem in Hrun at 1 2 3.
    rewrite Hiter, Hid, Hfilter, Hreg, Himg in Hrun.
    rewrite (get_docker_url_no_tag _ _ _ _ Hno) in Hrun.
    assert (is_Key_Type_ValueError
              match image with
              | PStr _ => IndexError
              | _ => AttributeError
              end = false) as Hout by by destruct image.
    rewrite Hout in Hrun. injection Hrun as -> ->.
    split_and!; [done|done|done|by repeat constructor].
  - rewrite Forall_forall in Hnone. by apply Hnone in Hin.
Qed.

(** X16 on the image "checkout". *)
Lemma main_untagged_image_witness :
  let config : gmap string pyval :=
    {[ "iteration" := PStr "v1"; "docker_image" := PStr "checkout" ]} in
  let env := constant_world "." (Ok sample_marathon_config) (Ok (Some config))
               (Ok "{}") (Ok ()) (Ok []) (Ok ()) (Ok ())
               (Ok sample_monitoring) (Ok ()) in
  let run := main sample_args env [] in
  run.1 = Raised IndexError ∧ alert_attempts run.2 = 0 ∧ length run.2 = 3.
Proof.
  intros config env run.
  assert (Hget : EvGetConfig (Ok sample_marathon_config) ∈ run.2)
    by (vm_compute; left).
  assert (Hin : EvReadServiceConfig "checkout" "main" (PStr "devc")
                  "/nail/soa" (Ok (Some config)) ∈ run.2)
    by (vm_compute; right; right; left).
  assert (Hno : ∀ s, PStr "checkout" = PStr s → contains ":" s = false)
    by (by intros s [= <-]).
  destruct (main_untagged_image env [] sample_args run.1 run.2 "checkout"
              "main" (PStr "devc") "/nail/soa" config sample_marathon_config
              (PStr "v1") (PStr "checkout") (PStr "registry.local")
              "checkout.main.v1" "checkout.main"
              (surjective_pairing run) Hget Hin eq_refl eq_refl eq_refl Hno
              eq_refl eq_refl)
    as (Hr & Hatt & Hlen & _).
  by split_and!.
Defined.

(** ** What [send_sensu_event] does with errors and with the record *)

(** X17. [send_sensu_event] never leaves the process, and it raises
    exactly what the reader of the monitoring file raised, or what the alert
    client raised unless that is a [TypeError]: a [TypeError] of the alert
    client is swallowed and the function returns as if the event had been
    sent. *)
Theorem send_sensu_event_errors env h name instance soa_dir status output
    r t :
  send_sensu_event name instance soa_dir status output env h = (r, t) →
  (∀ code, r ≠ Exited code) ∧
  (∀ e, r = Raised e ↔
        (∃ file, EvReadMonitoring file (Raise e) ∈ t) ∨
        (is_TypeError e = false ∧
         ∃ nm runbook st out team kwargs,
           EvSendEvent nm runbook st out team kwargs (Raise e) ∈ t)) ∧
  (∀ nm runbook st out team kwargs e,
     EvSendEvent nm runbook st out team kwargs (Raise e) ∈ t →
     is_TypeError e = true → r = Done ()).
Proof.
  rewrite send_sensu_event_run. cbv zeta.
  destruct (read_monitoring env h _) as [conf|e0].
  - destruct (py_truthy (dict_get conf "team")).
    + destruct (pysensu_yelp_send_event _ _ _ _ _ _ _ _) as [[]|e0].
      * intros [= <- <-]. split_and!; [done| |].
        -- intros e. split; [done|].
           intros [[file Hin]|(_ & nm & rb & st & out & tm & kw & Hin)];
             not_in_run Hin.
        -- intros nm rb st out tm kw e Hin. not_in_run Hin.
      * destruct (is_TypeError e0) eqn:Htype; intros [= <- <-].
        -- split_and!; [done| |done].
           intros e. split; [done|].
           intros [[file Hin]|(Hne & nm & rb & st & out & tm & kw & Hin)];
             [not_in_run Hin|].
           apply elem_of_cons in Hin as [Hin|Hin]; [discriminate Hin|].
           apply list_elem_of_singleton in Hin. congruence.
        -- split_and!; [done| |].
           ++ intros e. split.
              ** intros [= <-]. right. split; [done|].
                 do 6 eexists. right. left.
              ** intros [[file Hin]|(_ & nm & rb & st & out & tm & kw & Hin)];
                   [not_in_run Hin|].
                 apply elem_of_cons in Hin as [Hin|Hin]; [discriminate Hin|].
                 apply list_elem_of_singleton in Hin. congruence.
           ++ intros nm rb st out tm kw e Hin Hyes.
              apply elem_of_cons in Hin as [Hin|Hin]; [discriminate Hin|].
              apply list_elem_of_singleton in Hin. congruence.
    + intros [= <- <-]. split_and!; [done| |].
      * intros e. split; [done|].
        intros [[file Hin]|(_ & nm & rb & st & out & tm & kw & Hin)];
          not_in_run Hin.
      * intros nm rb st out tm kw e Hin. not_in_run Hin.
  - intros [= <- <-]. split_and!; [done| |].
    + intros e. split.
      * intros [= <-]. left. eexists. left.
      * intros [[file Hin]|(_ & nm & rb & st & out & tm & kw & Hin)];
          [|not_in_run Hin].
        apply list_elem_of_singleton in Hin. congruence.
    + intros nm rb st out tm kw e Hin. not_in_run Hin.
Qed.

(** X17 where the alert client refuses a field of the record. *)
Lemma send_sensu_event_errors_witness :
  let env := world_refusing_alerts (world "." (Ok ()) [] sample_monitoring)
               (TypeError "unexpected keyword argument") in
  let run :=
    send_sensu_event "checkout" "main" "/nail/soa" Status_OK "done" env [] in
  count is_send_event run.2 = 1 ∧ run.1 = Done ().
Proof.
  intros env run.
  destruct (send_sensu_event_errors env [] "checkout" "main" "/nail/soa"
              Status_OK "done" run.1 run.2 (surjective_pairing run))
    as (_ & _ & Hswallow).
  split; [reflexivity|].
  assert (Hsent : ∃ nm runbook st out team kwargs,
            EvSendEvent nm runbook st out team kwargs
              (Raise (TypeError "unexpected keyword argument")) ∈ run.2).
  { do 6 eexists. vm_compute. right. left. }
  destruct Hsent as (nm & runbook & st & out & team & kwargs & Hin).
  exact (Hswallow nm runbook st out team kwargs _ Hin eq_refl).
Defined.

(** X18. An event that [send_sensu_event] sends carries the status and
    the output it was given, and follows the reading of the file
    "monitoring.yaml" in the directory of the service under the absolute
    path of the configuration directory. Apart from "team", "runbook" and
    "alert_after", the extra fields it forwards are those of the record that
    was read, unchanged. *)
Theorem send_sensu_event_forwards env h name instance soa_dir status output
    r t nm runbook st out team kwargs answer :
  send_sensu_event name instance soa_dir status output env h = (r, t) →
  EvSendEvent nm runbook st out team kwargs answer ∈ t →
  st = status ∧ out = output ∧
  ∃ conf,
    t = [EvReadMonitoring
           (os_path_join (os_path_abspath env soa_dir)
              [name; "monitoring.yaml"]) (Ok conf);
         EvSendEvent nm runbook st out team kwargs answer] ∧
    ∀ k, k ∉ ["team"; "runbook"; "alert_after"] →
         kwargs !! k = conf !! k.
Proof.
  rewrite send_sensu_event_run. cbv zeta.
  destruct (read_monitoring env h _) as [conf|e0];
    [|intros [= <- <-] Hin; not_in_run Hin].
  destruct (py_truthy (dict_get conf "team"));
    [|intros [= <- <-] Hin; not_in_run Hin].
  intros [= <- <-] Hin.
  apply elem_of_cons in Hin as [Hin|Hin]; [discriminate Hin|].
  apply list_elem_of_singleton in Hin.
  injection Hin as -> -> -> -> -> -> ->.
  split_and!; [done|done|]. exists conf. split; [done|].
  intros k Hk.
  rewrite lookup_insert_ne by (intros <-; apply Hk; set_solver).
  rewrite lookup_delete_ne by (intros <-; apply Hk; set_solver).
  rewrite lookup_delete_ne by (intros <-; apply Hk; set_solver).
  done.
Qed.

(** X18 on the sample record. *)
Lemma send_sensu_event_forwards_witness :
  let env := world "." (Ok ()) [] sample_monitoring in
  let run :=
    send_sensu_event "checkout" "main" "/nail/soa" Status_CRITICAL "failed"
      env [] in
  ∃ nm runbook team kwargs answer,
    run.2 = [EvReadMonitoring "/nail/soa/checkout/monitoring.yaml"
               (Ok sample_monitoring);
             EvSendEvent nm runbook Status_CRITICAL "failed" team kwargs
               answer] ∧
    kwargs !! "page" = Some (PBool true).
Proof.
  intros env run.
  assert (Hsent : ∃ nm runbook st out team kwargs answer,
            EvSendEvent nm runbook st out team kwargs answer ∈ run.2).
  { do 7 eexists. vm_compute. right. left. }
  destruct Hsent as (nm & runbook & st & out & team & kwargs & answer & Hin).
  destruct (send_sensu_event_forwards env [] "checkout" "main" "/nail/soa"
              Status_CRITICAL "failed" run.1 run.2 nm runbook st out team
              kwargs answer (surjective_pairing run) Hin)
    as (-> & -> & conf & Ht & Hsame).
  exists nm, runbook, team, kwargs, answer.
  assert (Hconf : conf = sample_monitoring).
  { assert (Hhead : head run.2 = Some (EvReadMonitoring
              "/nail/soa/checkout/monitoring.yaml" (Ok sample_monitoring)))
      by reflexivity.
    rewrite Ht in Hhead. by injection Hhead as ->. }
  subst conf. split; [exact Ht|].
  rewrite Hsame by (intros Hk; not_in_run Hk). reflexivity.
Defined.

(** ** The descriptor *)

Lemma create_complete_config_eq env h name url docker_options
    service_marathon_config :
  create_complete_config name url docker_options service_marathon_config
    env h =
  (of_result
     match (if py_truthy (dict_get service_marathon_config "num_ports") then
              match py_int env (dict_get service_marathon_config "num_ports")
              with
              | Ok n => Ok (replicate (Z.to_nat n) 0%Z)
              | Raise e => Raise e
              end
            else Ok [0%Z]) with
     | Raise e => Raise e
     | Ok ports =>
     match (if py_truthy (dict_get service_marathon_config "mem")
            then py_int env (dict_get service_marathon_config "mem")
            else Ok 100%Z) with
     | Raise e => Raise e
     | Ok mem =>
     match (if py_truthy (dict_get service_marathon_config "cpus")
            then py_int env (dict_get service_marathon_config "cpus")
            else Ok 1%Z) with
     | Raise e => Raise e
     | Ok cpus =>
     match (if py_truthy (dict_get service_marathon_config "instances")
            then py_int env (dict_get service_marathon_config "instances")
            else Ok 1%Z) with
     | Raise e => Raise e
     | Ok instances =>
         Ok {| cfg_id := name;
               cfg_container_image := url;
               cfg_container_options := docker_options;
               cfg_uris := [];
               cfg_ports := ports;
               cfg_mem := mem;
               cfg_cpus := cpus;
               cfg_constraints := dict_get service_marathon_config
                                    "constraints";
               cfg_instances := instances |}
     end end end end, []).
Proof.
  unfold create_complete_config.
  rewrite (run_silent_bind _ _ _ _ _ (get_ports_run _ _ _)).
  destruct (if py_truthy (dict_get _ "num_ports") then _ else _)
    as [ports|e]; [|done].
  rewrite (run_silent_bind _ _ _ _ _ (get_mem_run _ _ _)).
  destruct (if py_truthy (dict_get _ "mem") then _ else _)
    as [mem|e]; [|done].
  rewrite (run_silent_bind _ _ _ _ _ (get_cpus_run _ _ _)).
  destruct (if py_truthy (dict_get _ "cpus") then _ else _)
    as [cpus|e]; [|done].
  rewrite (run_silent_bind _ _ _ _ _ (get_instances_run _ _ _)).
  by destruct (if py_truthy (dict_get _ "instances") then _ else _)
    as [instances|e].
Qed.

(** The fields that [create_complete_config] passes on as they are. *)
Lemma create_complete_config_done env h name url docker_options
    service_marathon_config c :
  (create_complete_config name url docker_options service_marathon_config
     env h).1 = Done c →
  cfg_id c = name ∧ cfg_container_image c = url ∧
  cfg_container_options c = docker_options ∧ cfg_uris c = [] ∧
  cfg_constraints c = dict_get service_marathon_config "constraints" ∧
  (if py_truthy (dict_get service_marathon_config "instances")
   then py_int env (dict_get service_marathon_config "instances")
        = Ok (cfg_instances c)
   else cfg_instances c = 1%Z).
Proof.
  rewrite create_complete_config_eq. simpl.
  destruct (if py_truthy (dict_get _ "num_ports") then _ else _)
    as [ports|e]; [|done].
  destruct (if py_truthy (dict_get _ "mem") then _ else _)
    as [mem|e]; [|done].
  destruct (if py_truthy (dict_get _ "cpus") then _ else _)
    as [cpus|e]; [|done].
  destruct (py_truthy (dict_get _ "instances")).
  - destruct (py_int env _) as [instances|e]; [|done].
    by intros [= <-].
  - by intros [= <-].
Qed.

(** X19. [create_complete_config] calls nothing. It returns a descriptor
    exactly when [int()] accepts each of num_ports, mem, cpus and instances
    that is set. The descriptor has the id, the image and the options it
    was given, no URIs, the constraints of the service configuration
    ([None] when there are none), and for instances what [int()] makes of
    the configured value, or 1 when that is unset. *)
Theorem create_complete_config_fields env h name url docker_options
    service_marathon_config :
  (create_complete_config name url docker_options service_marathon_config
     env h).2 = [] ∧
  ((∃ c, (create_complete_config name url docker_options
            service_marathon_config env h).1 = Done c) ↔
   int_accepts env (dict_get service_marathon_config "num_ports") ∧
   int_accepts env (dict_get service_marathon_config "mem") ∧
   int_accepts env (dict_get service_marathon_config "cpus") ∧
   int_accepts env (dict_get service_marathon_config "instances")) ∧
  (∀ c, (create_complete_config name url docker_options
           service_marathon_config env h).1 = Done c →
     cfg_id c = name ∧ cfg_container_image c = url ∧
     cfg_container_options c = docker_options ∧ cfg_uris c = [] ∧
     cfg_constraints c = dict_get service_marathon_config "constraints" ∧
     (if py_truthy (dict_get service_marathon_config "instances")
      then py_int env (dict_get service_marathon_config "instances")
           = Ok (cfg_instances c)
      else cfg_instances c = 1%Z)).
Proof.
  split; [by rewrite create_complete_config_eq|].
  split; [|intros c; apply create_complete_config_done].
  rewrite create_complete_config_eq. unfold int_accepts. simpl.
  destruct (py_truthy (dict_get service_marathon_config "num_ports"));
    [destruct (py_int env (dict_get service_marathon_config "num_ports"))
       as [n1|e1]|];
    (destruct (py_truthy (dict_get service_marathon_config "mem"));
     [destruct (py_int env (dict_get service_marathon_config "mem"))
        as [n2|e2]|]);
    (destruct (py_truthy (dict_get service_marathon_config "cpus"));
     [destruct (py_int env (dict_get service_marathon_config "cpus"))
        as [n3|e3]|]);
    (destruct (py_truthy (dict_get service_marathon_config "instances"));
     [destruct (py_int env (dict_get service_marathon_config "instances"))
        as [n4|e4]|]);
    simpl;
    (split;
     [intros [c Hc]; try discriminate Hc;
      split_and!; first [by eauto | by intros [=]]
     |intros (H1 & H2 & H3 & H4);
      try (by destruct (H1 eq_refl)); try (by destruct (H2 eq_refl));
      try (by destruct (H3 eq_refl)); try (by destruct (H4 eq_refl));
      by eauto]).
Qed.




(** ** The identity of the instance *)

Lemma send_sensu_event_identity env h name instance soa_dir status output :
  let x := send_sensu_event name instance soa_dir status output env h in
  Forall (λ nm, nm = "setup_marathon_job." +:+ name +:+ ID_SPACER env
                     +:+ instance) (send_event_names x.2) ∧
  Forall (λ file, file = os_path_join (os_path_abspath env soa_dir)
                           [name; "monitoring.yaml"]) (monitoring_files x.2).
Proof.
  cbv zeta. rewrite send_sensu_event_run. cbv zeta.
  destruct (read_monitoring env h _) as [conf|e]; simpl.
  - destruct (py_truthy (dict_get conf "team")); simpl;
      by split; repeat constructor.
  - by split; repeat constructor.
Qed.

Lemma no_alert_identity t :
  Forall not_alert_call t → send_event_names t = [] ∧ monitoring_files t = [].
Proof.
  unfold send_event_names, monitoring_files.
  induction 1 as [|e t [Hread Hsend] _ [IH1 IH2]]; [done|].
  destruct e; simpl in *; try discriminate Hread; try discriminate Hsend;
    by rewrite ?IH1, ?IH2.
Qed.

Lemma main_report_identity env h args service_name instance_name client
    marathon_config service_instance_config :
  let x := main_report args service_name instance_name client marathon_config
             service_instance_config env h in
  Forall (λ nm, nm = "setup_marathon_job." +:+ service_name +:+ ID_SPACER env
                     +:+ instance_name) (send_event_names x.2) ∧
  Forall (λ file, file = os_path_join (os_path_abspath env (soa_dir args))
                           [service_name; "monitoring.yaml"])
    (monitoring_files x.2).
Proof.
  cbv zeta. rewrite main_report_run.
  pose proof (λ h status output,
                send_sensu_event_identity env h service_name instance_name
                  (soa_dir args) status output) as Hsend.
  cbv zeta in Hsend.
  destruct (config_truthy service_instance_config).
  - pose proof (setup_service_quiet env h service_name instance_name client
                  marathon_config (default ∅ service_instance_config))
      as [_ Hcalls].
    apply no_alert_identity in Hcalls as [Hn1 Hf1].
    destruct (setup_service _ _ _ _ _ _ _) as [[[status output]|e|code] t1];
      simpl in *.
    + pose proof (Hsend (h ++ t1)
                    (if (status =? 0)%Z then Status_OK else Status_CRITICAL)
                    output) as [Hn2 Hf2].
      destruct (send_sensu_event _ _ _ _ _ _ _) as [[[]|e|code] t2];
        simpl in *; unfold send_event_names, monitoring_files in *;
        rewrite ?omap_app, ?Hn1, ?Hf1; simpl; [done| |done].
      destruct (is_Key_Type_ValueError e); simpl;
        [|by rewrite ?omap_app, ?Hn1, ?Hf1].
      pose proof (Hsend (h ++ t1 ++ t2) Status_CRITICAL (exn_str e))
        as [Hn3 Hf3].
      destruct (send_sensu_event _ _ _ _ _ _ _) as [r3 t3]. simpl in *.
      unfold send_event_names, monitoring_files in *.
      rewrite !omap_app, Hn1, Hf1. simpl. by rewrite ?omap_app, !Forall_app.
    + destruct (is_Key_Type_ValueError e); simpl.
      * pose proof (Hsend (h ++ t1) Status_CRITICAL (exn_str e))
          as [Hn3 Hf3].
        destruct (send_sensu_event _ _ _ _ _ _ _) as [r3 t3]. simpl in *.
        unfold send_event_names, monitoring_files in *.
        by rewrite !omap_app, Hn1, Hf1.
      * rewrite Hn1, Hf1. by split; constructor.
    + rewrite Hn1, Hf1. by split; constructor.
  - destruct (dict_getitem marathon_config "cluster") as [cluster|e];
      [|by split; constructor].
    pose proof (Hsend h Status_CRITICAL
                  ("Could not read marathon configuration file for "
                   +:+ service_instance args +:+ " in cluster "
                   +:+ py_str cluster)) as [Hn3 Hf3].
    by destruct (send_sensu_event _ _ _ _ _ _ _) as [r3 t3].
Qed.

(** X21. The identity goes round. With a one-character separator and an
    argument "<service><separator><instance>" whose two parts do not hold
    the separator, a run of [main] reads the service configuration of that
    service and that instance in the configuration directory of the
    arguments; every event it sends is named "setup_marathon_job." followed
    by the argument itself; and every monitoring file it reads is
    "monitoring.yaml" in the directory of the service. *)
Theorem main_identity env h args c service instance :
  ID_SPACER env = String c EmptyString →
  service_instance args = service +:+ String c instance →
  contains (String c EmptyString) service = false →
  contains (String c EmptyString) instance = false →
  (∀ s i cl d answer,
     EvReadServiceConfig s i cl d answer ∈ (main args env h).2 →
     s = service ∧ i = instance ∧ d = soa_dir args) ∧
  Forall (λ nm, nm = "setup_marathon_job." +:+ service_instance args)
    (send_event_names (main args env h).2) ∧
  Forall (λ file, file = os_path_join (os_path_abspath env (soa_dir args))
                           [service; "monitoring.yaml"])
    (monitoring_files (main args env h).2).
Proof.
  intros Hsep Harg Hservice Hinstance.
  rewrite main_run, Hsep, Harg, (py_split_char _ _ _ Hservice Hinstance).
  rewrite main_deploy_run.
  destruct (marathon_tools_get_config env h) as [marathon_config|e];
    [|by split_and!; [intros s i cl d a Hin; not_in_run Hin|constructor..]].
  cbv zeta.
  destruct (dict_getitem marathon_config "url") as [url|e];
    [|by split_and!; [intros s i cl d a Hin; not_in_run Hin|constructor..]].
  destruct (dict_getitem marathon_config "user") as [user|e];
    [|by split_and!; [intros s i cl d a Hin; not_in_run Hin|constructor..]].
  destruct (dict_getitem marathon_config "pass") as [passwd|e];
    [|by split_and!; [intros s i cl d a Hin; not_in_run Hin|constructor..]].
  destruct (new_MarathonClient env _ url user passwd) as [[]|e];
    [|by split_and!; [intros s i cl d a Hin; not_in_run Hin|constructor..]].
  destruct (dict_getitem marathon_config "cluster") as [cluster|e];
    [|by split_and!; [intros s i cl d a Hin; not_in_run Hin|constructor..]].
  destruct (marathon_tools_read_service_config env _ _ _ _ _)
    as [service_instance_config|e].
  - match goal with |- context [main_report ?a ?b ?c ?d ?e ?f env ?hh] =>
      pose proof (main_report_no_config env hh a b c d e f) as Hnone;
      pose proof (main_report_identity env hh a b c d e f) as [Hnames Hfiles];
      destruct (main_report a b c d e f env hh) as [r' t']
    end.
    simpl in *. rewrite Hsep in Hnames. split_and!; [|done|done].
    intros s i cl d a Hin.
    apply elem_of_cons in Hin as [Hin|Hin]; [discriminate Hin|].
    apply elem_of_cons in Hin as [Hin|Hin]; [discriminate Hin|].
    apply elem_of_cons in Hin as [[= -> -> _ -> _]|Hin]; [done|].
    rewrite Forall_forall in Hnone. by apply Hnone in Hin.
  - split_and!; [|constructor..]. intros s i cl d a Hin. simpl in Hin.
    apply elem_of_cons in Hin as [Hin|Hin]; [discriminate Hin|].
    apply elem_of_cons in Hin as [Hin|Hin]; [discriminate Hin|].
    apply elem_of_cons in Hin as [[= -> -> _ -> _]|Hin]; [done|].
    by apply elem_of_nil in Hin.
Qed.

(** X21 on the argument "checkout.main". *)
Lemma main_identity_witness :
  let run := main sample_args (world "." (Ok ()) [] sample_monitoring) [] in
  send_event_names run.2 = ["setup_marathon_job.checkout.main"] ∧
  monitoring_files run.2 = ["/nail/soa/checkout/monitoring.yaml"] ∧
  Forall (λ nm, nm = "setup_marathon_job.checkout.main")
    (send_event_names run.2).
Proof.
  intros run.
  destruct (main_identity (world "." (Ok ()) [] sample_monitoring) []
              sample_args "."%char "checkout" "main" eq_refl eq_refl eq_refl
              eq_refl) as (_ & Hnames & _).
  split; [reflexivity|]. split; [reflexivity|]. exact Hnames.
Defined.

(** ** The bounce method *)

(** X22. The bounce method of the service configuration decides what
    [setup_service] does with earlier iterations. When the exact id was
    looked up and the listing that followed holds an id that contains the
    filter name: with "bounce_method" unset (absent or falsy) or set to
    "brutal", the run makes one bounce, of exactly the listed ids that
    contain the filter name, and creates no app; with any other value it
    returns (1, "bounce_method not recognized: <value>") and changes
    nothing. *)
Theorem setup_service_bounce_method env h service_name instance_name client
    marathon_config service_marathon_config r t c id answer filter_name
    app_list :
  setup_service service_name instance_name client marathon_config
    service_marathon_config env h = (r, t) →
  EvGetApp c id answer ∈ t →
  remove_iteration_from_job_id env id = Ok filter_name →
  EvListApps c (Ok app_list) ∈ t →
  Exists (λ app, contains filter_name (app_id app) = true) app_list →
  let bounce_method := dict_get service_marathon_config "bounce_method" in
  (py_truthy bounce_method = false ∨ bounce_method = PStr "brutal" →
   count is_brutal_bounce t = 1 ∧ count is_create_app t = 0 ∧
   ∃ config result,
     EvBrutalBounce (old_app_ids filter_name app_list) config client result
     ∈ t) ∧
  (py_truthy bounce_method = true ∧ bounce_method ≠ PStr "brutal" →
   r = Done (1%Z, "bounce_method not recognized: " +:+ py_str bounce_method) ∧
   count is_change t = 0).
Proof.
  intros Hrun Hget Hfilter Hlist Hsome.
  pose proof (setup_service_shape env h service_name instance_name client
                marathon_config service_marathon_config) as Hshape.
  rewrite Hrun in Hshape. simpl in Hshape.
  destruct Hshape as [[-> _]|[(url & e & [= -> ->])|
    [(url & body & img & Hb & Himg & [= -> ->])|
     [(url & body & e & Hb & [= -> ->])|
      (url & body & it & id' & cfg & ans & rest & Hb & _ & _ & _ & -> &
       Hrest & Hans)]]]]; try not_in_run Hget.
  apply elem_of_cons in Hget as [Hget|Hget]; [discriminate Hget|].
  apply elem_of_cons in Hget as [[= -> -> ->]|Hget];
    [|rewrite Forall_forall in Hrest; by apply Hrest in Hget].
  apply elem_of_cons in Hlist as [Hlist|Hlist]; [discriminate Hlist|].
  apply elem_of_cons in Hlist as [Hlist|Hlist]; [discriminate Hlist|].
  destruct ans as [[]|e];
    [destruct Hans as [-> _]; by apply elem_of_nil in Hlist|].
  destruct (is_KeyError e);
    [|destruct Hans as [-> _]; by apply elem_of_nil in Hlist].
  rewrite deploy_service_run, Hfilter in Hans.
  destruct (client_list_apps env _ client) as [apps|e'];
    [|injection Hans as <- <-; not_in_run Hlist].
  cbv zeta in Hans.
  apply old_app_ids_some in Hsome as (old & olds & Hold).
  assert (apps = app_list) as ->.
  { destruct (old_app_ids filter_name apps);
      [|destruct (py_eq_str _ _)]; injection Hans as <- <-;
      (apply elem_of_cons in Hlist as [[= ->]|Hlist]; [done|]);
      not_in_run Hlist. }
  rewrite Hold in Hans |- *. unfold get_bounce_method in Hans.
  cbv zeta. split.
  - intros Hbrutal.
    assert (py_eq_str
              (if py_truthy (dict_get service_marathon_config "bounce_method")
               then dict_get service_marathon_config "bounce_method"
               else PStr "brutal") "brutal" = true) as Heq.
    { destruct Hbrutal as [-> | ->]; [done|done]. }
    rewrite Heq in Hans. injection Hans as <- <-.
    split_and!; [done|done|]. do 2 eexists. do 3 right. left.
  - intros [Hset Hother]. rewrite Hset in Hans.
    rewrite (py_eq_str_false _ _ Hother) in Hans.
    by injection Hans as <- <-.
Qed.

(** X22 where no bounce method is configured. *)
Lemma setup_service_bounce_method_witness :
  let env := world "." not_found [{| app_id := "checkout.main.v0" |}]
               sample_monitoring in
  let run :=
    setup_service "checkout" "main" sample_client sample_marathon_config
      sample_service_config env [] in
  dict_get sample_service_config "bounce_method" = PNone ∧
  count is_brutal_bounce run.2 = 1 ∧ count is_create_app run.2 = 0.
Proof.
  intros env run.
  assert (Hget : EvGetApp sample_client "checkout.main.v1" not_found ∈ run.2)
    by (vm_compute; right; left).
  assert (Hlist : EvListApps sample_client
                    (Ok [{| app_id := "checkout.main.v0" |}]) ∈ run.2)
    by (vm_compute; right; right; left).
  assert (Hsome : Exists (λ app, contains "checkout.main" (app_id app) = true)
                    [{| app_id := "checkout.main.v0" |}])
    by (left; reflexivity).
  destruct (setup_service_bounce_method env [] "checkout" "main" sample_client
              sample_marathon_config sample_service_config run.1 run.2 _ _ _
              "checkout.main" _ (surjective_pairing run) Hget eq_refl Hlist
              Hsome) as [Hbrutal _].
  destruct (Hbrutal (or_introl eq_refl)) as (Hbounce & Hcreate & _).
  by split_and!.
Defined.
